(** * init_script.py: model staging script, shallow embedding

    The script reads a config path, extracts a model version from it with a
    regular expression, resolves registry credentials from a JSON blob,
    probes the GPU, downloads the label file and the GPU specific engine
    file with curl, checks the engine's MD5 against the storage API and
    renames it to its final name.

    Python [str] values are modelled as [string] (one [ascii] per
    character), [bytes] as [list byte], exceptions as values of [exn]
    carried by [result], and the operating system (files, working
    directory, log, subprocess calls) as an explicit [World] that every
    effectful function threads through. *)

From Stdlib Require Import ZArith Ascii.
From Stdlib Require String.
From Stdlib.Floats Require SpecFloat.
From Stdlib.Strings Require Import Byte.
From stdpp Require Import gmap strings list.
From Equations Require Import Equations.

Local Open Scope Z_scope.

(** ** Python exceptions and results *)

Inductive exn : Type :=
| ScriptError (msg : string)            (* class ScriptError(Exception) *)
| KeyError (key : string)
| TypeError (msg : string)
| JSONDecodeError
| YAMLError
| OSError (path : string)               (* FileNotFoundError and friends *)
| CalledProcessError (cmd : string).

Inductive result (A : Type) : Type :=
| Ok (a : A)
| Raise (e : exn).
Arguments Ok {A} a.
Arguments Raise {A} e.

(** ** Strings *)

Definition newline : ascii := "010"%char.
Definition slash : ascii := "/"%char.

(** [needle in s] for a one-character needle. *)
Fixpoint mem_char (c : ascii) (s : string) : bool :=
  match s with
  | EmptyString => false
  | String d t => Ascii.eqb c d || mem_char c t
  end.

(** [s.endswith(lit)] *)
Fixpoint ends_with (lit s : string) : bool :=
  String.eqb s lit ||
  match s with
  | EmptyString => false
  | String _ t => ends_with lit t
  end.

(** [needle in s] on [str]: some suffix of [s] starts with [needle]. *)
Fixpoint contains (needle s : string) : bool :=
  String.prefix needle s ||
  match s with
  | EmptyString => false
  | String _ t => contains needle t
  end.

(** The text of [s] up to (not including) its first newline. *)
Fixpoint first_line (s : string) : string :=
  match s with
  | EmptyString => EmptyString
  | String c t => if Ascii.eqb c newline then EmptyString else String c (first_line t)
  end.

(** ** The fragment of [re] the script uses

    Both patterns of the script, [(?<=/output/deepstream_models/).*(?=/)]
    and [(?<=: ).*], are sequences of a fixed-width lookbehind, a greedy
    [.*] and a lookahead.  The matcher is the backtracking one of [re]:
    [.*] first takes every character it can ([.] refuses only the newline)
    and gives characters back one at a time until the rest of the pattern
    matches; [search] tries the start positions from left to right. *)

Module Re.

Inductive item : Type :=
| LookBehind (lit : string)     (* (?<=lit) *)
| LookAhead (lit : string)      (* (?=lit)  *)
| DotStar.                      (* .*  greedy, DOTALL off *)

Definition regex := list item.

(** [star k seen rest]: greedy [.*] followed by the continuation [k].
    [seen] is the text before the current position, [rest] the text from
    it on; the result is the text matched from the current position. *)
Fixpoint star (k : string → string → option string) (seen rest : string)
  : option string :=
  match rest with
  | EmptyString => k seen rest
  | String c t =>
      if Ascii.eqb c newline then k seen rest
      else match star k (seen +:+ String c EmptyString) t with
           | Some m => Some (String c m)
           | None => k seen rest
           end
  end.

(** [match_at r seen rest]: match [r] at the position between [seen] and
    [rest]; returns the matched text ([match.group(0)]). *)
Fixpoint match_at (r : regex) (seen rest : string) : option string :=
  match r with
  | [] => Some EmptyString
  | LookBehind lit :: r' =>
      if ends_with lit seen then match_at r' seen rest else None
  | LookAhead lit :: r' =>
      if String.prefix lit rest then match_at r' seen rest else None
  | DotStar :: r' => star (match_at r') seen rest
  end.

(** [re.search]: the leftmost position at which the pattern matches. *)
Fixpoint search_from (r : regex) (seen rest : string) : option string :=
  match match_at r seen rest with
  | Some m => Some m
  | None =>
      match rest with
      | EmptyString => None
      | String c t => search_from r (seen +:+ String c EmptyString) t
      end
  end.

Definition search (r : regex) (s : string) : option string :=
  search_from r EmptyString s.

End Re.

(** ** extract_model_version (lines 21-26) *)

Definition MODELS_PREFIX : string := "/output/deepstream_models/".

(** r'(?<=/output/deepstream_models/).*(?=/)' *)
Definition model_version_re : Re.regex :=
  [Re.LookBehind MODELS_PREFIX; Re.DotStar; Re.LookAhead "/"].

Definition extract_model_version (model_dir_configmap : string) : result string :=
  match Re.search model_version_re model_dir_configmap with
  | Some m => Ok m   (* a match object is always truthy, also when it is empty *)
  | None => Raise (ScriptError "Error extracting model version from path.")
  end.

(** ** hashlib.md5 (RFC 1321)

    The digest function of the library, on 32-bit words held in [Z]. *)

Module MD5.

Definition mask32 : Z := 0xffffffff.
Definition add32 (x y : Z) : Z := Z.land (x + y) mask32.
Definition not32 (x : Z) : Z := Z.lxor x mask32.
Definition rotl32 (x : Z) (n : Z) : Z :=
  Z.lor (Z.land (Z.shiftl x n) mask32) (Z.shiftr x (32 - n)).

(** Per-round shift amounts. *)
Definition S_table : list Z :=
  [7; 12; 17; 22; 7; 12; 17; 22; 7; 12; 17; 22; 7; 12; 17; 22;
   5; 9; 14; 20; 5; 9; 14; 20; 5; 9; 14; 20; 5; 9; 14; 20;
   4; 11; 16; 23; 4; 11; 16; 23; 4; 11; 16; 23; 4; 11; 16; 23;
   6; 10; 15; 21; 6; 10; 15; 21; 6; 10; 15; 21; 6; 10; 15; 21].

(** K[i] = floor(2^32 * abs(sin(i + 1))). *)
Definition K_table : list Z :=
 [0xd76aa478; 0xe8c7b756; 0x242070db; 0xc1bdceee;
  0xf57c0faf; 0x4787c62a; 0xa8304613; 0xfd469501;
  0x698098d8; 0x8b44f7af; 0xffff5bb1; 0x895cd7be;
  0x6b901122; 0xfd987193; 0xa679438e; 0x49b40821;
  0xf61e2562; 0xc040b340; 0x265e5a51; 0xe9b6c7aa;
  0xd62f105d; 0x02441453; 0xd8a1e681; 0xe7d3fbc8;
  0x21e1cde6; 0xc33707d6; 0xf4d50d87; 0x455a14ed;
  0xa9e3e905; 0xfcefa3f8; 0x676f02d9; 0x8d2a4c8a;
  0xfffa3942; 0x8771f681; 0x6d9d6122; 0xfde5380c;
  0xa4beea44; 0x4bdecfa9; 0xf6bb4b60; 0xbebfbc70;
  0x289b7ec6; 0xeaa127fa; 0xd4ef3085; 0x04881d05;
  0xd9d4d039; 0xe6db99e5; 0x1fa27cf8; 0xc4ac5665;
  0xf4292244; 0x432aff97; 0xab9423a7; 0xfc93a039;
  0x655b59c3; 0x8f0ccc92; 0xffeff47d; 0x85845dd1;
  0x6fa87e4f; 0xfe2ce6e0; 0xa3014314; 0x4e0811a1;
  0xf7537e82; 0xbd3af235; 0x2ad7d2bb; 0xeb86d391].

Record state : Type := { sa : Z; sb : Z; sc : Z; sd : Z }.

Definition init : state :=
  {| sa := 0x67452301; sb := 0xefcdab89; sc := 0x98badcfe; sd := 0x10325476 |}.

(** Little-endian 32-bit words of a byte sequence. *)
Fixpoint words_le (bs : list Z) : list Z :=
  match bs with
  | b0 :: b1 :: b2 :: b3 :: t =>
      (b0 + Z.shiftl b1 8 + Z.shiftl b2 16 + Z.shiftl b3 24) :: words_le t
  | _ => []
  end.

(** One of the 64 operations on the block [m] (16 words). *)
Definition step (m : list Z) (st : state) (i : nat) : state :=
  let '{| sa := a; sb := b; sc := c; sd := d |} := st in
  let '(f, g) :=
    if (i <? 16)%nat then (Z.lor (Z.land b c) (Z.land (not32 b) d), i)
    else if (i <? 32)%nat then
      (Z.lor (Z.land d b) (Z.land (not32 d) c), ((5 * i + 1) mod 16)%nat)
    else if (i <? 48)%nat then (Z.lxor (Z.lxor b c) d, ((3 * i + 5) mod 16)%nat)
    else (Z.lxor c (Z.lor b (not32 d)), ((7 * i) mod 16)%nat) in
  let f' := add32 (add32 (add32 f a) (nth i K_table 0)) (nth g m 0) in
  {| sa := d; sb := add32 b (rotl32 f' (nth i S_table 0)); sc := b; sd := c |}.

Definition compress (st : state) (block : list Z) : state :=
  let m := words_le block in
  let st' := fold_left (step m) (seq 0 64) st in
  {| sa := add32 (sa st) (sa st'); sb := add32 (sb st) (sb st');
     sc := add32 (sc st) (sc st'); sd := add32 (sd st) (sd st') |}.

Definition le_bytes (n : nat) (x : Z) : list Z :=
  map (fun i => Z.land (Z.shiftr x (8 * Z.of_nat i)) 0xff) (seq 0 n).

(** Padding: a 1 bit, zeros up to 56 mod 64, the bit length on 8 bytes. *)
Definition pad (msg : list Z) : list Z :=
  let len := Z.of_nat (length msg) in
  let zeros := Z.to_nat ((55 - len) mod 64) in
  msg ++ [0x80] ++ repeat 0 zeros ++ le_bytes 8 (Z.land (8 * len) 0xffffffffffffffff).

Fixpoint blocks (fuel : nat) (st : state) (bs : list Z) : state :=
  match fuel with
  | O => st
  | S fuel' =>
      match bs with
      | [] => st
      | _ => blocks fuel' (compress st (take 64 bs)) (drop 64 bs)
      end
  end.

Definition digest (msg : list byte) : list Z :=
  let bs := pad (map (fun b => Z.of_N (Byte.to_N b)) msg) in
  let st := blocks (length bs) init bs in
  le_bytes 4 (sa st) ++ le_bytes 4 (sb st) ++ le_bytes 4 (sc st) ++ le_bytes 4 (sd st).

Definition hex_digit (n : Z) : ascii :=
  match String.get (Z.to_nat n) "0123456789abcdef" with
  | Some c => c
  | None => "0"%char
  end.

Fixpoint hex (bs : list Z) : string :=
  match bs with
  | [] => EmptyString
  | b :: t => String (hex_digit (Z.shiftr b 4)) (String (hex_digit (Z.land b 0xf)) (hex t))
  end.

(** The hash object: [update] calls are equivalent to one call on the
    concatenation of their arguments, so the object is the bytes fed so
    far. *)
Record hash : Type := { absorbed : list byte }.
Definition new : hash := {| absorbed := [] |}.
Definition update (h : hash) (chunk : list byte) : hash :=
  {| absorbed := absorbed h ++ chunk |}.
Definition hexdigest (h : hash) : string := hex (digest (absorbed h)).

End MD5.

(** The bytes of an ASCII text, as [bytes] literals of the script's inputs. *)
Definition bytes_of (s : string) : list byte := String.list_byte_of_string s.

(** ** Python values produced by json.loads and yaml.full_load *)

#[warnings="-register-all"] Inductive pyval : Type :=
| PNone
| PBool (b : bool)
| PInt (z : Z)
| PFloat (f : SpecFloat.spec_float)
| PStr (s : string)
| PList (l : list pyval)
| PDict (d : gmap string pyval).

(** Truth value testing: [not v] is [negb (truthy v)]. *)
Definition truthy (v : pyval) : bool :=
  match v with
  | PNone => false
  | PBool b => b
  | PInt z => negb (z =? 0)
  | PFloat (SpecFloat.S754_zero _) => false
  | PFloat _ => true
  | PStr s => negb (String.eqb s "")
  | PList l => match l with [] => false | _ => true end
  | PDict d => negb (bool_decide (d = ∅))
  end.

(** [v[key]] for a [str] key. *)
Definition subscript (v : pyval) (key : string) : result pyval :=
  match v with
  | PDict d =>
      match d !! key with
      | Some x => Ok x
      | None => Raise (KeyError key)
      end
  | PStr _ => Raise (TypeError "string indices must be integers")
  | PList _ => Raise (TypeError "list indices must be integers or slices, not str")
  | _ => Raise (TypeError "object is not subscriptable")
  end.

(** [needle in v] as the script applies it to the GPU model, which is a
    [str] or [None]. *)
Definition py_in (needle : string) (v : option string) : result bool :=
  match v with
  | Some s => Ok (contains needle s)
  | None => Raise (TypeError "argument of type 'NoneType' is not iterable")
  end.

(** ** The operating system the script runs against

    Files are keyed by absolute path; a relative path is resolved against
    the working directory by plain concatenation (the script uses no [..]
    and no doubled separators).  [log] is what the [logging] module has
    emitted and [calls] the argument vectors of the subprocesses run so
    far, both oldest first. *)

Inductive node : Type :=
| File (content : list byte)
| Dir.

Inductive level : Type := INFO | ERROR.

Record World : Type := {
  fs : gmap string node;
  cwd : string;
  log : list (level * string);
  calls : list (list string)
}.

(** Outcome of a subprocess: its standard output on exit status 0, a
    non-zero exit status, or a program that could not be started. *)
Inductive proc (A : Type) : Type :=
| Exit0 (out : A)
| ExitNonZero
| NotStarted.
Arguments Exit0 {A} out.
Arguments ExitNonZero {A}.
Arguments NotStarted {A}.

(** What is outside the script: the parsers of the libraries, the process
    environment, the GPU tool and the artifact store behind curl. *)
Record Host : Type := {
  json_loads : string → option pyval;          (* None: JSONDecodeError *)
  yaml_full_load : list byte → option pyval;   (* None: YAMLError *)
  getenv : string → option string;
  nvidia_smi : proc string;                    (* nvidia-smi -L, decoded *)
  curl_download : string → string → proc (list byte);
      (* curl -f -O url with --user creds: the body written to the file *)
  curl_stdout : string → string → proc string;
      (* curl -s url with --user creds: the body printed *)
  py_repr : pyval → string;                    (* str() of a non-str value *)
  stat_repr : string → string                  (* str(os.stat(path)) *)
}.

(** ** Paths *)

Definition abspath (w : World) (p : string) : string :=
  if String.prefix "/" p then p else cwd w +:+ "/" +:+ p.

(** os.path.basename: what follows the last separator. *)
Fixpoint basename (p : string) : string :=
  match p with
  | EmptyString => EmptyString
  | String c t =>
      if mem_char slash t then basename t
      else if Ascii.eqb c slash then t
      else p
  end.

(** os.path.dirname: what precedes the last separator. *)
Fixpoint dirname (p : string) : string :=
  match p with
  | EmptyString => EmptyString
  | String c t => if mem_char slash t then String c (dirname t) else EmptyString
  end.

(** The directories above [p], nearest last; the root is not listed. *)
Fixpoint ancestors_from (seen p : string) : list string :=
  match p with
  | EmptyString => []
  | String c t =>
      (if Ascii.eqb c slash && negb (String.eqb seen "") then [seen] else [])
      ++ ancestors_from (seen +:+ String c EmptyString) t
  end.
Definition ancestors (p : string) : list string := ancestors_from "" p.

Definition isfile (w : World) (p : string) : bool :=
  match fs w !! abspath w p with Some (File _) => true | _ => false end.

Definition isdir (w : World) (p : string) : bool :=
  match fs w !! abspath w p with Some Dir => true | _ => false end.

Definition exists_ (w : World) (p : string) : bool :=
  match fs w !! abspath w p with Some _ => true | None => false end.

(** The directory holding [p] is there (the root always is). *)
Definition parent_ok (w : World) (p : string) : bool :=
  let d := dirname (abspath w p) in
  String.eqb d "" || isdir w d.

(** ** The monad of the script: a world in, a result and a world out *)

Definition M (A : Type) : Type := World → result A * World.

Definition ret {A} (a : A) : M A := fun w => (Ok a, w).
Definition raise {A} (e : exn) : M A := fun w => (Raise e, w).
Definition bind {A B} (m : M A) (k : A → M B) : M B :=
  fun w => match m w with
           | (Ok a, w') => k a w'
           | (Raise e, w') => (Raise e, w')
           end.
(** try: m / except Exception as e: h e *)
Definition try_except {A} (m : M A) (h : exn → M A) : M A :=
  fun w => match m w with
           | (Ok a, w') => (Ok a, w')
           | (Raise e, w') => h e w'
           end.
Definition lift {A} (r : result A) : M A := fun w => (r, w).

Notation "'let*' x ':=' m 'in' k" := (bind m (fun x => k))
  (at level 10, x name, m at level 100, k at level 200).
Notation "m '>>' k" := (bind m (fun _ => k))
  (at level 90, right associativity).

Definition logging (l : level) (msg : string) : M unit :=
  fun w => (Ok tt, {| fs := fs w; cwd := cwd w; log := log w ++ [(l, msg)];
                      calls := calls w |}).

Definition record_call (argv : list string) : M unit :=
  fun w => (Ok tt, {| fs := fs w; cwd := cwd w; log := log w;
                      calls := calls w ++ [argv] |}).

Definition set_fs (f : gmap string node) (w : World) : World :=
  {| fs := f; cwd := cwd w; log := log w; calls := calls w |}.

(** open(path, 'rb').read(): the content of a regular file. *)
Definition read_file (p : string) : M (list byte) :=
  fun w => match fs w !! abspath w p with
           | Some (File c) => (Ok c, w)
           | _ => (Raise (OSError p), w)
           end.

(** Creating or overwriting a regular file. *)
Definition write_file (p : string) (c : list byte) : M unit :=
  fun w => (Ok tt, set_fs (<[abspath w p := File c]> (fs w)) w).

(** What [curl -O] leaves on exit status 0: the body, in a file of the
    working directory named after the URL.  curl exits with a non-zero
    status when that name is a directory. *)
Definition curl_output (name : string) (body : list byte) : M unit :=
  fun w => if isdir w name
           then (Raise (CalledProcessError "curl"), w)
           else write_file name body w.

(** os.rename of a regular file: the source must be a file, the target
    must not be a directory and its directory must exist; an existing
    target file is replaced. *)
Definition os_rename (src dst : string) : M unit :=
  fun w =>
    match fs w !! abspath w src with
    | Some (File c) =>
        if isdir w dst || negb (parent_ok w dst) then (Raise (OSError dst), w)
        else (Ok tt, set_fs (<[abspath w dst := File c]> (delete (abspath w src) (fs w))) w)
    | _ => (Raise (OSError src), w)
    end.

(** os.chdir to an absolute path. *)
Definition os_chdir (p : string) : M unit :=
  fun w => if isdir w p
           then (Ok tt, {| fs := fs w; cwd := p; log := log w; calls := calls w |})
           else (Raise (OSError p), w).

(** os.makedirs: creates the directory and the missing ones above it. *)
Definition os_makedirs (p : string) : M unit :=
  fun w =>
    let a := abspath w p in
    if existsb (fun d => isfile w d) (ancestors a) || exists_ w a
    then (Raise (OSError p), w)
    else (Ok tt, set_fs (foldr (fun d f => <[d := Dir]> f) (fs w) (ancestors a ++ [a])) w).

(** str(e), as interpolated into the messages of the script. *)
Definition exn_str (e : exn) : string :=
  match e with
  | ScriptError msg => msg
  | KeyError k => "'" +:+ k +:+ "'"
  | TypeError msg => msg
  | JSONDecodeError => "Expecting value"
  | YAMLError => "could not parse"
  | OSError p => "[Errno] " +:+ p
  | CalledProcessError c => "Command '" +:+ c +:+ "' returned non-zero exit status."
  end.

Definition os_path_isfile (p : string) : M bool := fun w => (Ok (isfile w p), w).
Definition os_path_exists (p : string) : M bool := fun w => (Ok (exists_ w p), w).

(** An interpolated value in an f-string. *)
Definition fmt (h : Host) (v : pyval) : string :=
  match v with
  | PStr s => s
  | _ => py_repr h v
  end.

(** [s == v] for a [str] on the left. *)
Definition str_eq (s : string) (v : pyval) : bool :=
  match v with
  | PStr t => String.eqb s t
  | _ => false
  end.

(** str.isspace on one character, and str.strip(). *)
Definition is_space (c : ascii) : bool :=
  let n := N_of_ascii c in
  ((9 <=? n) && (n <=? 13) || (28 <=? n) && (n <=? 32) || (n =? 133) || (n =? 160))%N.

Fixpoint lstrip (s : string) : string :=
  match s with
  | EmptyString => EmptyString
  | String c t => if is_space c then lstrip t else s
  end.

Fixpoint rstrip (s : string) : string :=
  match s with
  | EmptyString => EmptyString
  | String c t =>
      let t' := rstrip t in
      if is_space c && String.eqb t' "" then EmptyString else String c t'
  end.

Definition strip (s : string) : string := rstrip (lstrip s).

(** ** The functions of init_script.py *)

(** read_yaml_config (lines 16-19) *)
Definition read_yaml_config (h : Host) (file_path : string) : M pyval :=
  let* text := read_file file_path in
  let* config :=
    lift (match yaml_full_load h text with Some v => Ok v | None => Raise YAMLError end) in
  let* property := lift (subscript config "property") in
  lift (subscript property "model-engine-file").

(** get_auth_credentials (lines 28-34) *)
Definition get_auth_credentials (h : Host) (dockerconfigjson jfrog_env : string)
  : result (pyval * pyval) :=
  match json_loads h dockerconfigjson with
  | None => Raise JSONDecodeError
  | Some auths =>
      match subscript auths "auths" with
      | Raise e => Raise e
      | Ok a =>
          match subscript a jfrog_env with
          | Raise e => Raise e
          | Ok entry =>
              match subscript entry "username" with
              | Raise e => Raise e
              | Ok username =>
                  (* auths["auths"][jfrog_env] is evaluated a second time *)
                  match subscript entry "password" with
                  | Raise e => Raise e
                  | Ok password =>
                      if negb (truthy username) || negb (truthy password)
                      then Raise (ScriptError "Failed to retrieve username or password")
                      else Ok (username, password)
                  end
              end
          end
      end
  end.

(** r'(?<=: ).*' *)
Definition gpu_re : Re.regex := [Re.LookBehind ": "; Re.DotStar].

(** get_gpu_model (lines 36-42) *)
Definition get_gpu_model (h : Host) : M (option string) :=
  record_call ["nvidia-smi"; "-L"] >>
  match nvidia_smi h with
  | Exit0 out => ret (Re.search gpu_re (strip out))
  | ExitNonZero =>
      raise (ScriptError ("Error retrieving GPU model: "
                            +:+ exn_str (CalledProcessError "nvidia-smi")))
  | NotStarted => raise (OSError "nvidia-smi")
  end.

(** f'{username}:{password}' *)
Definition userpass (h : Host) (username password : pyval) : string :=
  fmt h username +:+ ":" +:+ fmt h password.

(** The command line of run_curl_command. *)
Definition download_argv (h : Host) (url : string) (username password : pyval)
  : list string :=
  ["curl"; "--connect-timeout"; "30"; "--retry"; "3"; "--retry-delay"; "5";
   "--user"; userpass h username password; "-s"; "-S"; "-f"; "-O"; url].

(** The command line of get_jfrog_checksum. *)
Definition checksum_argv (h : Host) (url : string) (username password : pyval)
  : list string :=
  ["curl"; "--user"; userpass h username password; "-s"; url].

(** run_curl_command (lines 44-53) *)
Definition run_curl_command (h : Host) (url : string) (username password : pyval)
    (local_path : string) : M unit :=
  let userpass := userpass h username password in
  let curl_command := download_argv h url username password in
  try_except
    (record_call curl_command >>
     match curl_download h url userpass with
     | Exit0 body => curl_output (basename url) body
     | ExitNonZero => raise (CalledProcessError "curl")
     | NotStarted => raise (OSError "curl")
     end >>
     os_rename (basename url) local_path >>
     logging INFO ("Downloaded file to " +:+ local_path))
    (fun e => raise (ScriptError ("Error downloading file: " +:+ exn_str e))).

(** get_jfrog_checksum (lines 55-63) *)
Definition get_jfrog_checksum (h : Host) (url : string) (username password : pyval)
  : M pyval :=
  let userpass := userpass h username password in
  let curl_command := checksum_argv h url username password in
  try_except
    (record_call curl_command >>
     let* result :=
       match curl_stdout h url userpass with
       | Exit0 out => ret out
       | ExitNonZero => raise (CalledProcessError "curl")
       | NotStarted => raise (OSError "curl")
       end in
     let* response_json :=
       lift (match json_loads h result with Some v => Ok v | None => Raise JSONDecodeError end) in
     let* checksums := lift (subscript response_json "checksums") in
     lift (subscript checksums "md5"))
    (fun e => raise (ScriptError ("Error fetching JFrog checksum: " +:+ exn_str e))).

(** The loop of verify_md5 (lines 68-69): [f.read(4096)] until it returns
    [b""], every chunk fed to the hash object.  [data] is what the file
    object has not delivered yet. *)
Equations? read_chunks (hash_md5 : MD5.hash) (data : list byte) : MD5.hash
  by wf (length data) lt :=
  read_chunks hash_md5 data with Equations.Prop.Logic.inspect (take 4096 data) := {
    | exist _ [] _ => hash_md5
    | exist _ (b :: chunk) _ =>
        read_chunks (MD5.update hash_md5 (b :: chunk)) (drop 4096 data) }.
Proof.
  destruct data as [|x data]; [discriminate|].
  rewrite length_drop. simpl. lia.
Qed.

(** verify_md5 (lines 65-73) *)
Definition verify_md5 (local_file_path : string) (expected_md5 : pyval) : M unit :=
  let* data := read_file local_file_path in
  let hash_md5 := read_chunks MD5.new data in
  let md5_matches := str_eq (MD5.hexdigest hash_md5) expected_md5 in
  if negb md5_matches
  then raise (ScriptError ("MD5 check failed for " +:+ local_file_path +:+ "."))
  else logging INFO ("MD5 check passed for " +:+ local_file_path).

Definition ARTIFACTS : string :=
  "https://colesgroup.jfrog.io/artifactory/ieb-prod-generic-virtual/deepstream-models/".
Definition artifact_url (model_version name : string) : string :=
  ARTIFACTS +:+ model_version +:+ "/" +:+ name.
Definition STORAGE_API : string :=
  "https://colesgroup.jfrog.io/artifactory/api/storage/ieb-prod-generic-virtual/deepstream-models/".

(** download_and_check_label_file (lines 75-81) *)
Definition download_and_check_label_file (h : Host) (label_file model_version : string)
    (username password : pyval) : M unit :=
  let* present := os_path_isfile label_file in
  if negb present then
    logging INFO "Label file not found. Downloading label file." >>
    let label_url := artifact_url model_version "labels.txt" in
    run_curl_command h label_url username password label_file
  else
    logging INFO "Label file already exists. Skipping download.".

Definition A2_ENGINE : string := "A2_model.onnx_b1_gpu0_fp16.engine".
Definition A16_ENGINE : string := "A16_model.onnx_b1_gpu0_fp16.engine".

(** Lines 88-97 of download_and_check_model_file: the artifact URL and the
    download name for the GPU model. *)
Definition select_variant (model_version : string) (gpu_model : option string)
  : result (string * string) :=
  match py_in "A2" gpu_model with
  | Raise e => Raise e
  | Ok true => Ok (artifact_url model_version A2_ENGINE, A2_ENGINE)
  | Ok false =>
      match py_in "A16" gpu_model with
      | Raise e => Raise e
      | Ok true => Ok (artifact_url model_version A16_ENGINE, A16_ENGINE)
      | Ok false =>
          Raise (ScriptError ("Unsupported GPU model " +:+ default "None" gpu_model))
      end
  end.

(** download_and_check_model_file (lines 83-107) *)
Definition download_and_check_model_file (h : Host) (model_file model_version : string)
    (gpu_model : option string) (username password : pyval) : M unit :=
  let* present := os_path_isfile model_file in
  if negb present then
    logging INFO "Model file not found. Downloading model file for GPU model..." >>
    let* variant := lift (select_variant model_version gpu_model) in
    let '(model_url, local_path) := variant in
    run_curl_command h model_url username password local_path >>
    let jfrog_url := STORAGE_API +:+ model_version +:+ "/" +:+ basename local_path in
    let* jfrog_checksum := get_jfrog_checksum h jfrog_url username password in
    verify_md5 local_path jfrog_checksum >>
    os_rename local_path model_file >>
    let* present' := os_path_exists model_file in
    if present'
    then logging INFO ("Downloaded and verified model file - " +:+ stat_repr h model_file)
    else raise (OSError model_file)
  else
    logging INFO "Model file already exists. Skipping download.".

(** ensure_model_directory_exists (lines 110-117) *)
Definition ensure_model_directory_exists (model_dir : string) : M string :=
  let* present := os_path_exists model_dir in
  (if negb present then
     os_makedirs model_dir >>
     logging INFO ("Created model directory: " +:+ model_dir)
   else
     logging INFO ("Model directory already exists: " +:+ model_dir)) >>
  ret model_dir.

(** The final name of the engine file (lines 149-150). *)
Definition model_file_of (model_version : string) : string :=
  ("/output/deepstream_models/" +:+ model_version) +:+ "/model.onnx_b1_gpu0_fp16.engine".

(** The [try] block of main (lines 123-151). *)
Definition main_body (h : Host) : M unit :=
  let* model_dir_configmap := read_yaml_config h "/config/config-infer-primary-bot.yaml" in
  let* model_version :=
    lift (match model_dir_configmap with
          | PStr s => extract_model_version s
          | _ => Raise (TypeError "expected string or bytes-like object")
          end) in
  logging INFO ("Model version: " +:+ model_version) >>
  let dockerconfigjson := getenv h "dockerconfigjson" in
  let jfrog_env := getenv h "JFROG_ENV" in
  match dockerconfigjson, jfrog_env with
  | Some dcj, Some env =>
      if String.eqb dcj "" || String.eqb env ""
      then raise (ScriptError "Docker config or JFrog environment variable not set.")
      else
        let* credentials := lift (get_auth_credentials h dcj env) in
        let '(username, password) := credentials in
        os_chdir "/output" >>
        let model_dir := "/output/deepstream_models/" +:+ model_version in
        ensure_model_directory_exists model_dir >>
        let label_file := "/output/deepstream_models/" +:+ model_version +:+ "/labels.txt" in
        download_and_check_label_file h label_file model_version username password >>
        let* gpu_model := get_gpu_model h in
        let model_file := model_file_of model_version in
        download_and_check_model_file h model_file model_version gpu_model username password
  | _, _ => raise (ScriptError "Docker config or JFrog environment variable not set.")
  end.

(** Lines 123-147 on their own: what main has computed when it reaches
    the model step (version, credentials, GPU model). *)
Definition main_setup (h : Host) : M (string * pyval * pyval * option string) :=
  let* model_dir_configmap := read_yaml_config h "/config/config-infer-primary-bot.yaml" in
  let* model_version :=
    lift (match model_dir_configmap with
          | PStr s => extract_model_version s
          | _ => Raise (TypeError "expected string or bytes-like object")
          end) in
  logging INFO ("Model version: " +:+ model_version) >>
  let dockerconfigjson := getenv h "dockerconfigjson" in
  let jfrog_env := getenv h "JFROG_ENV" in
  match dockerconfigjson, jfrog_env with
  | Some dcj, Some env =>
      if String.eqb dcj "" || String.eqb env ""
      then raise (ScriptError "Docker config or JFrog environment variable not set.")
      else
        let* credentials := lift (get_auth_credentials h dcj env) in
        let '(username, password) := credentials in
        os_chdir "/output" >>
        let model_dir := "/output/deepstream_models/" +:+ model_version in
        ensure_model_directory_exists model_dir >>
        let label_file := "/output/deepstream_models/" +:+ model_version +:+ "/labels.txt" in
        download_and_check_label_file h label_file model_version username password >>
        let* gpu_model := get_gpu_model h in
        ret (model_version, username, password, gpu_model)
  | _, _ => raise (ScriptError "Docker config or JFrog environment variable not set.")
  end.

(** main (lines 119-158): the exit status of the process and the world it
    leaves. *)
Definition main (h : Host) (w : World) : Z * World :=
  match main_body h w with
  | (Ok _, w') => (0, w')
  | (Raise (ScriptError msg), w') => (1, snd (logging ERROR msg w'))
  | (Raise e, w') => (1, snd (logging ERROR ("Unexpected error: " +:+ exn_str e) w'))
  end.

(** ** A concrete deployment, for evaluating the script

    The configuration of the end-to-end scenario: version v3.2, registry
    entry [prod] with credentials u/p, one A16 GPU, and an artifact store
    that serves a three byte engine file and reports [reported_md5] for
    it. *)

Definition demo_engine : list byte := bytes_of "abc".
Definition demo_engine_md5 : string := "900150983cd24fb0d6963f7d28e17f72".

(** The text of the credential blob (its double quotes left out: the
    parser is the host's). *)
Definition demo_creds_json : string := "{auths: {prod: {username: u, password: p}}}".

Definition demo_host (gpu_listing : proc string) (reported_md5 : pyval) : Host := {|
  json_loads s :=
    if String.eqb s demo_creds_json then
      Some (PDict {[ "auths" :=
              PDict {[ "prod" :=
                PDict (<[ "username" := PStr "u" ]> {[ "password" := PStr "p" ]}) ]} ]})
    else if String.eqb s "checksums" then
      Some (PDict {[ "checksums" := PDict {[ "md5" := reported_md5 ]} ]})
    else None;
  yaml_full_load _ :=
    Some (PDict {[ "property" :=
            PDict {[ "model-engine-file" :=
              PStr "/output/deepstream_models/v3.2/model.onnx" ]} ]});
  getenv name :=
    if String.eqb name "dockerconfigjson" then Some demo_creds_json
    else if String.eqb name "JFROG_ENV" then Some "prod"
    else None;
  nvidia_smi := gpu_listing;
  curl_download url _ :=
    if String.eqb (basename url) "labels.txt" then Exit0 (bytes_of "person")
    else Exit0 demo_engine;
  curl_stdout _ _ := Exit0 "checksums";
  py_repr _ := "?";
  stat_repr _ := "os.stat_result"
|}.

Definition demo_world : World := {|
  fs := <[ "/config/config-infer-primary-bot.yaml" := File (bytes_of "property:") ]>
          (<[ "/config" := Dir ]> {[ "/output" := Dir ]});
  cwd := "/";
  log := [];
  calls := []
|}.

Definition a16_listing : proc string :=
  Exit0 "GPU 0: NVIDIA A16-16Q (UUID: GPU-7c1f)".

(** ** Vocabulary of the specification *)

(** [auths[<env>].<field>] of a parsed credential blob: the value found by
    descending through mappings, [None] when a level is not a mapping or
    lacks the key. *)
Definition credential_field (blob : pyval) (env field : string) : option pyval :=
  match blob with
  | PDict top =>
      match top !! "auths" with
      | Some (PDict auths) =>
          match auths !! env with
          | Some (PDict entry) => entry !! field
          | _ => None
          end
      | _ => None
      end
  | _ => None
  end.

(** A field is empty or absent. *)
Definition empty_or_absent (o : option pyval) : Prop :=
  match o with
  | None => True
  | Some v => truthy v = false
  end.

(** str.lower() on ASCII text. *)
Definition lower_char (c : ascii) : ascii :=
  let n := N_of_ascii c in
  if ((65 <=? n) && (n <=? 90))%N then ascii_of_N (n + 32) else c.

Fixpoint lower (s : string) : string :=
  match s with
  | EmptyString => EmptyString
  | String c t => String (lower_char c) (lower t)
  end.

(** A host whose credential blob has an empty password. *)
Definition empty_password_host : Host := {|
  json_loads _ :=
    Some (PDict {[ "auths" :=
            PDict {[ "prod" :=
              PDict (<[ "username" := PStr "u" ]> {[ "password" := PStr "" ]}) ]} ]});
  yaml_full_load _ := None;
  getenv _ := None;
  nvidia_smi := ExitNonZero;
  curl_download _ _ := ExitNonZero;
  curl_stdout _ _ := ExitNonZero;
  py_repr _ := "?";
  stat_repr _ := "?"
|}.

(** A world holding an empty file and a file of 5000 bytes (two chunks). *)
Definition big_content : list byte := repeat "a"%byte 5000.

Definition files_world : World := {|
  fs := <[ "/output/empty.bin" := File [] ]>
          (<[ "/output/big.bin" := File big_content ]> {[ "/output" := Dir ]});
  cwd := "/output";
  log := [];
  calls := []
|}.

(** A world in which the label file and the engine file are staged. *)
Definition staged_world : World := {|
  fs := <[ "/output/deepstream_models/v3.2/labels.txt" := File (bytes_of "person") ]>
          (<[ "/output/deepstream_models/v3.2/model.onnx_b1_gpu0_fp16.engine"
                := File demo_engine ]>
             (<[ "/output/deepstream_models/v3.2" := Dir ]>
                (<[ "/output/deepstream_models" := Dir ]> {[ "/output" := Dir ]})));
  cwd := "/output";
  log := [];
  calls := []
|}.

(** A world in which the model directory exists and nothing is staged. *)
Definition ready_world : World := {|
  fs := <[ "/output/deepstream_models/v3.2" := Dir ]>
          (<[ "/output/deepstream_models" := Dir ]> {[ "/output" := Dir ]});
  cwd := "/output";
  log := [];
  calls := []
|}.

(** The deployment with a storage API that reports a wrong MD5. *)
Definition mismatch_host : Host := demo_host a16_listing (PStr "00").

(** ** Vocabulary of the proofs *)

(** What follows the lookbehind: the lookahead for a slash. *)
Definition slash_ahead (seen rest : string) : option string :=
  if String.prefix "/" rest then Some "" else None.

(** A step that only appends to the list of subprocess calls. *)
Definition appends {A} (m : M A) : Prop :=
  ∀ w, ∃ l, calls (snd (m w)) = calls w ++ l.

(** A step that keeps the working directory and every directory. *)
Definition stable {A} (m : M A) : Prop :=
  ∀ w, cwd (snd (m w)) = cwd w ∧
       ∀ d, fs w !! d = Some Dir → fs (snd (m w)) !! d = Some Dir.


(** A step that logs nothing but INFO lines. *)
Definition info_only {A} (m : M A) : Prop :=
  ∀ w, ∃ l, log (snd (m w)) = log w ++ l ∧ Forall (λ entry, fst entry = INFO) l.

(** A step that, run in the working directory of [w0], keeps that working
    directory and leaves alone every path outside [keys]. *)
Definition confined (w0 : World) (keys : list string) {A} (m : M A) : Prop :=
  ∀ w, cwd w = cwd w0 →
       cwd (snd (m w)) = cwd w0 ∧
       ∀ d, d ∉ keys → fs (snd (m w)) !! d = fs w !! d.

(** * Properties *)

(** ** Strings *)

Lemma str_app_nil_l (s : string) : "" +:+ s = s.
Proof. reflexivity. Qed.

Lemma str_app_cons (c : ascii) (s t : string) : String c s +:+ t = String c (s +:+ t).
Proof. reflexivity. Qed.

Lemma str_app_nil_r (s : string) : s +:+ "" = s.
Proof. induction s as [|c s IH]; [done|]. by rewrite str_app_cons, IH. Qed.

Lemma str_app_assoc (s t u : string) : (s +:+ t) +:+ u = s +:+ t +:+ u.
Proof. induction s as [|c s IH]; [done|]. by rewrite !str_app_cons, IH. Qed.

Lemma str_app_length (s t : string) :
  String.length (s +:+ t) = (String.length s + String.length t)%nat.
Proof. induction s as [|c s IH]; [done|]. rewrite str_app_cons. simpl. by rewrite IH. Qed.

Lemma prefix_spec (lit s : string) :
  String.prefix lit s = true ↔ ∃ b, s = lit +:+ b.
Proof.
  revert s. induction lit as [|c lit IH]; intros s.
  - split; [intros _; exists s; done|]. by destruct s.
  - destruct s as [|d s]; simpl.
    + split; [done|]. intros [b Hb]. discriminate Hb.
    + destruct (ascii_dec c d) as [->|Hne].
      * rewrite IH. split; intros [b Hb]; exists b.
        -- by rewrite str_app_cons, Hb.
        -- rewrite str_app_cons in Hb. congruence.
      * split; [done|]. intros [b Hb]. rewrite str_app_cons in Hb. congruence.
Qed.

Lemma prefix_app (lit b : string) : String.prefix lit (lit +:+ b) = true.
Proof. apply prefix_spec. by exists b. Qed.

Lemma ends_with_nil (lit : string) : ends_with lit "" = String.eqb "" lit.
Proof. cbn [ends_with]. apply orb_false_r. Qed.

Lemma ends_with_cons (lit : string) (c : ascii) (s : string) :
  ends_with lit (String c s) = String.eqb (String c s) lit || ends_with lit s.
Proof. reflexivity. Qed.

Lemma ends_with_spec (lit s : string) :
  ends_with lit s = true ↔ ∃ a, s = a +:+ lit.
Proof.
  induction s as [|c s IH].
  - rewrite ends_with_nil, String.eqb_eq. split.
    + intros <-. by exists "".
    + intros [[|d a] Ha]; [done|]. discriminate Ha.
  - rewrite ends_with_cons, orb_true_iff, String.eqb_eq, IH. split.
    + intros [<-|[a ->]]; [by exists ""|]. by exists (String c a).
    + intros [[|d a] Ha].
      * left. by rewrite Ha.
      * right. exists a. rewrite str_app_cons in Ha. congruence.
Qed.

Lemma contains_nil (lit : string) : contains lit "" = String.prefix lit "".
Proof. cbn [contains]. apply orb_false_r. Qed.

Lemma contains_cons (lit : string) (c : ascii) (s : string) :
  contains lit (String c s) = String.prefix lit (String c s) || contains lit s.
Proof. reflexivity. Qed.

Lemma contains_spec (lit s : string) :
  contains lit s = true ↔ ∃ a b, s = a +:+ lit +:+ b.
Proof.
  induction s as [|c s IH].
  - rewrite contains_nil, prefix_spec. split.
    + intros [b Hb]. by exists "", b.
    + intros [[|d a] [b Hb]]; [by exists b|]. discriminate Hb.
  - rewrite contains_cons, orb_true_iff, prefix_spec, IH. split.
    + intros [[b Hb]|(a & b & ->)]; [by exists "", b|]. by exists (String c a), b.
    + intros ([|d a] & b & Hab).
      * left. by exists b.
      * right. exists a, b. rewrite str_app_cons in Hab. congruence.
Qed.

Lemma mem_char_app (c : ascii) (s t : string) :
  mem_char c (s +:+ t) = mem_char c s || mem_char c t.
Proof.
  induction s as [|d s IH]; [done|].
  rewrite str_app_cons. simpl. by rewrite IH, orb_assoc.
Qed.

(** Splitting off the last character of a text that ends in [c]. *)
Lemma str_snoc_inv (t u a : string) (c : ascii) :
  t +:+ String c "" = u +:+ a → a ≠ "" →
  ∃ a', a = a' +:+ String c "" ∧ t = u +:+ a'.
Proof.
  revert t. induction u as [|d u IH]; intros t Heq Ha.
  - rewrite str_app_nil_l in Heq. subst a.
    exists t. by rewrite str_app_nil_l.
  - destruct t as [|e t].
    + rewrite str_app_nil_l, str_app_cons in Heq.
      injection Heq as _ Heq. destruct u; [destruct a; done|discriminate Heq].
    + rewrite !str_app_cons in Heq. injection Heq as -> Heq.
      destruct (IH t Heq Ha) as (a' & -> & ->).
      exists a'. by rewrite str_app_cons.
Qed.

(** ** The regular expression of extract_model_version *)

Lemma match_at_model_version (seen rest : string) :
  Re.match_at model_version_re seen rest =
  if ends_with MODELS_PREFIX seen then Re.star slash_ahead seen rest else None.
Proof. reflexivity. Qed.

Lemma slash_ahead_Some (seen rest m : string) :
  slash_ahead seen rest = Some m → m = "" ∧ ∃ b, rest = "/" +:+ b.
Proof.
  unfold slash_ahead. destruct (String.prefix "/" rest) eqn:Hp; [|done].
  intros [= <-]. split; [done|]. by apply prefix_spec.
Qed.

(** Soundness of the greedy star: what it returns is a newline-free
    stretch of the text, directly followed by a slash. *)
Lemma star_slash_sound (seen rest m : string) :
  Re.star slash_ahead seen rest = Some m →
  mem_char newline m = false ∧ ∃ b, rest = m +:+ "/" +:+ b.
Proof.
  revert seen m. induction rest as [|c t IH]; intros seen m; cbn [Re.star].
  - intros H. by apply slash_ahead_Some in H as [_ [b Hb]].
  - destruct (Ascii.eqb c newline) eqn:Hc.
    + intros H. apply slash_ahead_Some in H as [-> [b Hb]].
      split; [done|]. by exists b.
    + destruct (Re.star slash_ahead _ t) as [m'|] eqn:Hs.
      * intros [= <-]. apply IH in Hs as [Hnl [b ->]].
        split; [|by exists b].
        cbn [mem_char]. rewrite Hnl, orb_false_r. by rewrite Ascii.eqb_sym.
      * intros H. apply slash_ahead_Some in H as [-> [b Hb]].
        split; [done|]. by exists b.
Qed.

(** With no slash left on the line, the star has nothing to stop at. *)
Lemma star_slash_none (seen t : string) :
  mem_char slash (first_line t) = false → Re.star slash_ahead seen t = None.
Proof.
  revert seen. induction t as [|c t IH]; intros seen; cbn [Re.star first_line]; [done|].
  destruct (Ascii.eqb c newline) eqn:Hc.
  - intros _. apply Ascii.eqb_eq in Hc as ->. done.
  - cbn [mem_char]. intros [Hs Ht]%orb_false_elim. rewrite IH by done.
    unfold slash_ahead. cbn [String.prefix].
    destruct (ascii_dec "/" c) as [<-|]; [|done].
    unfold slash in Hs. by rewrite Ascii.eqb_refl in Hs.
Qed.

(** Greediness: the star runs to the last slash of the line. *)
Lemma star_slash_greedy (seen v t : string) :
  mem_char newline v = false →
  mem_char slash (first_line t) = false →
  Re.star slash_ahead seen (v +:+ "/" +:+ t) = Some v.
Proof.
  intros Hv Ht. revert seen Hv. induction v as [|c v IH]; intros seen Hv.
  - rewrite str_app_nil_l, str_app_cons, str_app_nil_l. cbn [Re.star].
    change (Ascii.eqb "/" newline) with false. cbv iota.
    rewrite star_slash_none by done. unfold slash_ahead.
    by rewrite (proj2 (prefix_spec "/" (String "/" t)) (ex_intro _ t eq_refl)).
  - cbn [mem_char] in Hv. apply orb_false_elim in Hv as [Hc Hv].
    rewrite str_app_cons. cbn [Re.star]. rewrite Ascii.eqb_sym, Hc.
    by rewrite IH.
Qed.

Lemma search_from_nil (r : Re.regex) (seen : string) :
  Re.search_from r seen "" = Re.match_at r seen "".
Proof. cbn [Re.search_from]. by destruct (Re.match_at r seen ""). Qed.

Lemma search_from_cons (r : Re.regex) (seen : string) (c : ascii) (t : string) :
  Re.search_from r seen (String c t) =
  match Re.match_at r seen (String c t) with
  | Some m => Some m
  | None => Re.search_from r (seen +:+ String c "") t
  end.
Proof. reflexivity. Qed.

(** The search moves on over positions where the lookbehind fails. *)
Lemma search_skip (seen a b : string) :
  (∀ a1 a2, a = a1 +:+ a2 → a2 ≠ "" → ends_with MODELS_PREFIX (seen +:+ a1) = false) →
  Re.search_from model_version_re seen (a +:+ b) =
  Re.search_from model_version_re (seen +:+ a) b.
Proof.
  revert seen. induction a as [|c a IH]; intros seen H.
  - by rewrite str_app_nil_l, str_app_nil_r.
  - rewrite str_app_cons, search_from_cons, match_at_model_version.
    rewrite <-(str_app_nil_r seen) at 1.
    rewrite (H "" (String c a)) by done.
    rewrite IH.
    + by rewrite str_app_assoc.
    + intros a1 a2 -> Ha2. rewrite str_app_assoc.
      apply (H (String c a1) a2); done.
Qed.

Lemma search_from_sound (seen rest m : string) :
  Re.search_from model_version_re seen rest = Some m →
  mem_char newline m = false ∧
  ∃ a b, seen +:+ rest = a +:+ MODELS_PREFIX +:+ m +:+ "/" +:+ b.
Proof.
  revert seen. induction rest as [|c t IH]; intros seen.
  - rewrite search_from_nil, match_at_model_version.
    destruct (ends_with MODELS_PREFIX seen) eqn:He; [|done].
    intros Hs. apply star_slash_sound in Hs as [_ [b Hb]].
    destruct m; discriminate Hb.
  - rewrite search_from_cons, match_at_model_version.
    destruct (if ends_with MODELS_PREFIX seen then _ else None) as [m'|] eqn:Hm.
    + intros [= <-].
      destruct (ends_with MODELS_PREFIX seen) eqn:He; [|done].
      apply ends_with_spec in He as [a ->].
      apply star_slash_sound in Hm as [Hnl [b ->]].
      split; [done|]. exists a, b. by rewrite str_app_assoc.
    + intros H. apply IH in H as [Hnl (a & b & Hab)].
      split; [done|]. exists a, b.
      by rewrite str_app_assoc in Hab.
Qed.

Lemma extract_model_version_sound (s v : string) :
  extract_model_version s = Ok v →
  mem_char newline v = false ∧ ∃ a b, s = a +:+ MODELS_PREFIX +:+ v +:+ "/" +:+ b.
Proof.
  unfold extract_model_version, Re.search.
  destruct (Re.search_from _ _ _) as [m|] eqn:Hs; [|done].
  intros [= <-]. by apply search_from_sound in Hs.
Qed.

Example extract_scenario :
  extract_model_version "/output/deepstream_models/v3.2/model.onnx" = Ok "v3.2".
Proof. vm_compute. reflexivity. Qed.

(** C1, as stated, fails: with further components after the version
    segment the greedy star runs to the last slash, and more than the
    first segment is returned. *)
Lemma extract_model_version_not_first_segment :
  mem_char slash "v1" = false ∧
  extract_model_version ("" +:+ MODELS_PREFIX +:+ "v1" +:+ "/" +:+ "a/b") = Ok "v1/a" ∧
  extract_model_version ("" +:+ MODELS_PREFIX +:+ "v1" +:+ "/" +:+ "a/b") ≠ Ok "v1".
Proof. vm_compute. repeat split; congruence. Qed.

(** C1 (amended): for a path [pre/output/deepstream_models/V/rest] in which
    the prefix occurs for the first time before [V], where [V] holds no
    newline and no slash follows [V/] on that line, extract_model_version
    returns exactly [V].  (The match ends at the last slash of the line, so
    [V] is the single version segment exactly when nothing after it holds a
    further slash.) *)
Theorem extract_model_version_last_slash (pre V rest : string) :
  contains MODELS_PREFIX (pre +:+ "/output/deepstream_models") = false →
  mem_char newline V = false →
  mem_char slash (first_line rest) = false →
  extract_model_version (pre +:+ MODELS_PREFIX +:+ V +:+ "/" +:+ rest) = Ok V.
Proof.
  intros Hfirst HV Hrest. unfold extract_model_version, Re.search.
  rewrite <-str_app_assoc, search_skip.
  - rewrite str_app_nil_l.
    assert (Re.match_at model_version_re (pre +:+ MODELS_PREFIX) (V +:+ "/" +:+ rest)
            = Some V) as Hm.
    { rewrite match_at_model_version.
      assert (ends_with MODELS_PREFIX (pre +:+ MODELS_PREFIX) = true) as ->
        by (apply ends_with_spec; eauto).
      by apply star_slash_greedy. }
    destruct (V +:+ "/" +:+ rest);
      [rewrite search_from_nil|rewrite search_from_cons]; by rewrite Hm.
  - intros a1 a2 Heq Ha2. rewrite str_app_nil_l.
    destruct (ends_with MODELS_PREFIX a1) eqn:He; [|done].
    apply ends_with_spec in He as [x ->].
    change MODELS_PREFIX with ("/output/deepstream_models" +:+ String slash "") in Heq at 1.
    rewrite <-str_app_assoc in Heq.
    apply str_snoc_inv in Heq as (a' & -> & Heq); [|done].
    assert (contains MODELS_PREFIX (pre +:+ "/output/deepstream_models") = true) as Hc.
    { apply contains_spec. exists x, a'. by rewrite Heq, str_app_assoc. }
    congruence.
Qed.

Lemma extract_model_version_last_slash_witness :
  extract_model_version ("" +:+ MODELS_PREFIX +:+ "v3.2" +:+ "/" +:+ "model.onnx") = Ok "v3.2".
Proof.
  apply (extract_model_version_last_slash "" "v3.2" "model.onnx"); reflexivity.
Defined.

(** C7, as stated, fails in its second half: an empty version is returned
    when the prefix is directly followed by a slash. *)
Lemma extract_model_version_empty_version :
  extract_model_version "/output/deepstream_models//x" = Ok "".
Proof. vm_compute. reflexivity. Qed.

(** C7 (amended): if [/output/deepstream_models/<VERSION>/] does not occur
    in the path, extract_model_version raises the extraction error; and
    whenever it returns, the version is a newline-free stretch of the path
    that stands between an occurrence of the prefix and a slash.  The
    version may be empty. *)
Theorem extract_model_version_no_pattern (s : string) :
  ((∀ a v b, s ≠ a +:+ MODELS_PREFIX +:+ v +:+ "/" +:+ b) →
   extract_model_version s = Raise (ScriptError "Error extracting model version from path.")) ∧
  (∀ v, extract_model_version s = Ok v →
        mem_char newline v = false ∧
        ∃ a b, s = a +:+ MODELS_PREFIX +:+ v +:+ "/" +:+ b).
Proof.
  split; [|apply extract_model_version_sound].
  intros Hno. destruct (extract_model_version s) as [v|e] eqn:He.
  - apply extract_model_version_sound in He as [_ (a & b & ->)].
    by destruct (Hno a v b).
  - unfold extract_model_version in He.
    destruct (Re.search _ _); [done|]. by injection He as <-.
Qed.

Lemma extract_model_version_no_pattern_witness :
  extract_model_version "/models/v1/model.onnx"
  = Raise (ScriptError "Error extracting model version from path.").
Proof.
  apply (extract_model_version_no_pattern "/models/v1/model.onnx").
  intros a v b H.
  assert (contains MODELS_PREFIX "/models/v1/model.onnx" = true) as Hc
    by (apply contains_spec; eauto).
  vm_compute in Hc. discriminate Hc.
Defined.

(** ** get_auth_credentials *)

Lemma subscript_Ok (v : pyval) (key : string) (x : pyval) :
  subscript v key = Ok x ↔ ∃ d, v = PDict d ∧ d !! key = Some x.
Proof.
  split.
  - destruct v; try discriminate. simpl.
    destruct (d !! key) eqn:Hk; [|discriminate]. intros [= <-]. eauto.
  - intros (d & -> & Hk). simpl. by rewrite Hk.
Qed.

Lemma subscript_Raise (v : pyval) (key : string) (e : exn) :
  subscript v key = Raise e → (∃ k, e = KeyError k) ∨ (∃ m, e = TypeError m).
Proof.
  destruct v; simpl; try (intros [= <-]; eauto).
  destruct (d !! key); [done|]. intros [= <-]; eauto.
Qed.

(** What get_auth_credentials returns, in terms of the fields of the
    parsed blob. *)
Lemma get_auth_credentials_Ok (h : Host) (blob env : string) (u p : pyval) :
  get_auth_credentials h blob env = Ok (u, p) ↔
  ∃ parsed, json_loads h blob = Some parsed ∧
            credential_field parsed env "username" = Some u ∧
            credential_field parsed env "password" = Some p ∧
            truthy u = true ∧ truthy p = true.
Proof.
  unfold get_auth_credentials, credential_field. split.
  - destruct (json_loads h blob) as [parsed|]; [|done].
    destruct (subscript parsed "auths") as [a|] eqn:H1; [|done].
    destruct (subscript a env) as [entry|] eqn:H2; [|done].
    destruct (subscript entry "username") as [u'|] eqn:H3; [|done].
    destruct (subscript entry "password") as [p'|] eqn:H4; [|done].
    destruct (truthy u') eqn:Hu, (truthy p') eqn:Hp; simpl; try done.
    intros [= <- <-].
    apply subscript_Ok in H1 as (top & -> & H1).
    apply subscript_Ok in H2 as (auths & -> & H2).
    apply subscript_Ok in H3 as (e1 & -> & H3).
    apply subscript_Ok in H4 as (e2 & [= <-] & H4).
    exists (PDict top). rewrite H1, H2. done.
  - intros (parsed & -> & Hu & Hp & Tu & Tp).
    destruct parsed as [| | | | | |top]; try done.
    destruct (top !! "auths") as [[| | | | | |auths]|] eqn:H1; try done.
    destruct (auths !! env) as [[| | | | | |entry]|] eqn:H2; try done.
    simpl. rewrite H1. simpl. rewrite H2. simpl. rewrite Hu, Hp, Tu, Tp. done.
Qed.

(** C8: credential resolution never returns a partial pair.  When the blob
    does not parse, get_auth_credentials raises the parse error; when the
    username or the password at [auths[<env>]] is empty or absent (which
    includes a missing registry-name key), it raises a key, type or
    domain error; and every pair it returns holds the two fields of the
    blob, both non-empty. *)
Theorem get_auth_credentials_never_partial (h : Host) (blob env : string) :
  (json_loads h blob = None →
   get_auth_credentials h blob env = Raise JSONDecodeError) ∧
  (∀ parsed, json_loads h blob = Some parsed →
     empty_or_absent (credential_field parsed env "username") ∨
     empty_or_absent (credential_field parsed env "password") →
     ∃ e, get_auth_credentials h blob env = Raise e ∧
          ((∃ k, e = KeyError k) ∨ (∃ m, e = TypeError m) ∨
           e = ScriptError "Failed to retrieve username or password")) ∧
  (∀ u p, get_auth_credentials h blob env = Ok (u, p) →
     truthy u = true ∧ truthy p = true ∧
     u ≠ PStr "" ∧ p ≠ PStr "" ∧ u ≠ PNone ∧ p ≠ PNone).
Proof.
  split; [|split].
  - intros Hnone. unfold get_auth_credentials. by rewrite Hnone.
  - intros parsed Hparsed Hbad.
    destruct (get_auth_credentials h blob env) as [[u p]|e] eqn:Hr.
    + apply get_auth_credentials_Ok in Hr as (parsed' & Hp' & Hu & Hp & Tu & Tp).
      assert (parsed' = parsed) as -> by congruence.
      rewrite Hu, Hp in Hbad. simpl in Hbad. destruct Hbad; congruence.
    + exists e. split; [done|].
      unfold get_auth_credentials in Hr. rewrite Hparsed in Hr.
      destruct (subscript parsed "auths") as [a|] eqn:H1;
        [|injection Hr as <-; apply subscript_Raise in H1; tauto].
      destruct (subscript a env) as [entry|] eqn:H2;
        [|injection Hr as <-; apply subscript_Raise in H2; tauto].
      destruct (subscript entry "username") as [u'|] eqn:H3;
        [|injection Hr as <-; apply subscript_Raise in H3; tauto].
      destruct (subscript entry "password") as [p'|] eqn:H4;
        [|injection Hr as <-; apply subscript_Raise in H4; tauto].
      destruct (negb (truthy u') || negb (truthy p')); [|done].
      injection Hr as <-. tauto.
  - intros u p Hr.
    apply get_auth_credentials_Ok in Hr as (_ & _ & _ & _ & Tu & Tp).
    repeat split; try done; intros ->; done.
Qed.

Lemma get_auth_credentials_never_partial_witness :
  ∃ e, get_auth_credentials empty_password_host "blob" "prod" = Raise e ∧
       ((∃ k, e = KeyError k) ∨ (∃ m, e = TypeError m) ∨
        e = ScriptError "Failed to retrieve username or password").
Proof.
  refine (proj1 (proj2 (get_auth_credentials_never_partial
                          empty_password_host "blob" "prod")) _ eq_refl _).
  right. vm_compute. reflexivity.
Defined.

Example get_auth_credentials_scenario :
  get_auth_credentials (demo_host a16_listing PNone) demo_creds_json "prod"
  = Ok (PStr "u", PStr "p").
Proof. vm_compute. reflexivity. Qed.

Example get_auth_credentials_missing_registry :
  get_auth_credentials (demo_host a16_listing PNone) demo_creds_json "staging"
  = Raise (KeyError "staging").
Proof. vm_compute. reflexivity. Qed.

(** ** Subprocess calls are only ever appended *)

Lemma appends_same {A} (m : M A) :
  (∀ w, calls (snd (m w)) = calls w) → appends m.
Proof. intros H w. exists []. by rewrite H, app_nil_r. Qed.

Lemma appends_ret {A} (a : A) : appends (ret a).
Proof. by apply appends_same. Qed.

Lemma appends_raise {A} (e : exn) : appends (@raise A e).
Proof. by apply appends_same. Qed.

Lemma appends_lift {A} (r : result A) : appends (lift r).
Proof. by apply appends_same. Qed.

Lemma appends_logging (l : level) (msg : string) : appends (logging l msg).
Proof. by apply appends_same. Qed.

Lemma appends_record_call (argv : list string) : appends (record_call argv).
Proof. intros w. by exists [argv]. Qed.

Lemma appends_read_file (p : string) : appends (read_file p).
Proof. apply appends_same. intros w. unfold read_file. by repeat case_match. Qed.

Lemma appends_write_file (p : string) (c : list byte) : appends (write_file p c).
Proof. by apply appends_same. Qed.

Lemma appends_curl_output (p : string) (c : list byte) : appends (curl_output p c).
Proof. apply appends_same. intros w. unfold curl_output. by case_match. Qed.

Lemma appends_os_rename (src dst : string) : appends (os_rename src dst).
Proof. apply appends_same. intros w. unfold os_rename. by repeat case_match. Qed.

Lemma appends_os_path_isfile (p : string) : appends (os_path_isfile p).
Proof. by apply appends_same. Qed.

Lemma appends_os_path_exists (p : string) : appends (os_path_exists p).
Proof. by apply appends_same. Qed.

Lemma appends_bind {A B} (m : M A) (k : A → M B) :
  appends m → (∀ a, appends (k a)) → appends (bind m k).
Proof.
  intros Hm Hk w. unfold bind. destruct (Hm w) as [l Hl].
  destruct (m w) as [[a|e] w'] eqn:Hmw; simpl in Hl.
  - destruct (Hk a w') as [l' Hl']. exists (l ++ l').
    by rewrite Hl', Hl, app_assoc.
  - by exists l.
Qed.

Lemma appends_try_except {A} (m : M A) (k : exn → M A) :
  appends m → (∀ e, appends (k e)) → appends (try_except m k).
Proof.
  intros Hm Hk w. unfold try_except. destruct (Hm w) as [l Hl].
  destruct (m w) as [[a|e] w'] eqn:Hmw; simpl in Hl.
  - by exists l.
  - destruct (Hk e w') as [l' Hl']. exists (l ++ l').
    by rewrite Hl', Hl, app_assoc.
Qed.

Create HintDb appends discriminated.
#[local] Hint Resolve appends_ret appends_raise appends_lift appends_logging
  appends_record_call appends_read_file appends_write_file appends_curl_output
  appends_os_rename
  appends_os_path_isfile appends_os_path_exists : appends.

Ltac appends_step :=
  first [ solve [auto with appends]
        | progress cbv zeta
        | apply appends_bind; [|intros ?]
        | apply appends_try_except; [|intros ?]
        | match goal with |- appends (match ?x with _ => _ end) => destruct x end
        | match goal with |- appends (if ?x then _ else _) => destruct x end ].

Lemma appends_verify_md5 (p : string) (expected : pyval) : appends (verify_md5 p expected).
Proof. unfold verify_md5. repeat appends_step. Qed.

Lemma appends_get_jfrog_checksum (h : Host) (url : string) (u p : pyval) :
  appends (get_jfrog_checksum h url u p).
Proof. unfold get_jfrog_checksum. repeat appends_step. Qed.

#[local] Hint Resolve appends_verify_md5 appends_get_jfrog_checksum : appends.

(** run_curl_command starts exactly one process, the download. *)
Lemma run_curl_command_calls (h : Host) (url : string) (u p : pyval) (lp : string)
    (w : World) :
  calls (snd (run_curl_command h url u p lp w)) = calls w ++ [download_argv h url u p].
Proof.
  unfold run_curl_command, try_except, bind, record_call, raise, curl_output,
    write_file, os_rename, logging, set_fs.
  cbn. repeat (case_match; simplify_eq/=; try done).
Qed.

(** The two branches of the model step. *)
Lemma model_step_present (h : Host) (model_file v : string) (gpu : option string)
    (u p : pyval) (w : World) :
  isfile w model_file = true →
  download_and_check_model_file h model_file v gpu u p w
  = logging INFO "Model file already exists. Skipping download." w.
Proof.
  intros Hf. unfold download_and_check_model_file.
  unfold bind at 1. unfold os_path_isfile. by rewrite Hf.
Qed.

Lemma model_step_absent (h : Host) (model_file v : string) (gpu : option string)
    (u p : pyval) (w : World) :
  isfile w model_file = false →
  download_and_check_model_file h model_file v gpu u p w
  = (let* variant := lift (select_variant v gpu) in
     let '(model_url, local_path) := variant in
     run_curl_command h model_url u p local_path >>
     let jfrog_url := STORAGE_API +:+ v +:+ "/" +:+ basename local_path in
     let* jfrog_checksum := get_jfrog_checksum h jfrog_url u p in
     verify_md5 local_path jfrog_checksum >>
     os_rename local_path model_file >>
     let* present' := os_path_exists model_file in
     if present'
     then logging INFO ("Downloaded and verified model file - " +:+ stat_repr h model_file)
     else raise (OSError model_file))
      (snd (logging INFO "Model file not found. Downloading model file for GPU model..." w)).
Proof.
  intros Hf. unfold download_and_check_model_file.
  unfold bind at 1. unfold os_path_isfile. rewrite Hf. cbn [negb].
  unfold bind at 1. reflexivity.
Qed.

(** Without the model file, the first process of the model step is the
    download of the selected artifact. *)
Lemma model_step_first_call (h : Host) (model_file v : string) (gpu : option string)
    (u p : pyval) (url lp : string) (w : World) :
  isfile w model_file = false →
  select_variant v gpu = Ok (url, lp) →
  ∃ rest, calls (snd (download_and_check_model_file h model_file v gpu u p w))
          = calls w ++ download_argv h url u p :: rest.
Proof.
  intros Hf Hsel. rewrite model_step_absent by done.
  unfold bind at 1. unfold lift at 1. rewrite Hsel.
  set (w1 := snd (logging INFO _ w)).
  change (calls w) with (calls w1).
  unfold bind at 1.
  pose proof (run_curl_command_calls h url u p lp w1) as Hc.
  destruct (run_curl_command h url u p lp w1) as [[[]|e] w2]; simpl in Hc.
  - match goal with |- context [snd (?m w2)] =>
      assert (appends m) as Ha by (repeat appends_step) end.
    destruct (Ha w2) as [l Hl]. exists l. rewrite Hl, Hc. by rewrite <-app_assoc.
  - exists []. done.
Qed.

(** When the selection raises, the model step raises the same error and
    has started no process. *)
Lemma model_step_selection_error (h : Host) (model_file v : string)
    (gpu : option string) (u p : pyval) (e : exn) (w : World) :
  isfile w model_file = false →
  select_variant v gpu = Raise e →
  fst (download_and_check_model_file h model_file v gpu u p w) = Raise e ∧
  calls (snd (download_and_check_model_file h model_file v gpu u p w)) = calls w ∧
  fs (snd (download_and_check_model_file h model_file v gpu u p w)) = fs w.
Proof.
  intros Hf Hsel. rewrite model_step_absent by done.
  unfold bind, lift. by rewrite Hsel.
Qed.

(** ** GPU to variant selection *)

Example select_variant_None (v : string) :
  select_variant v None = Raise (TypeError "argument of type 'NoneType' is not iterable").
Proof. reflexivity. Qed.

(** C2, as stated, fails: a GPU string that contains A16 and also A2
    selects the A2 artifact, since A2 is tested first. *)
Lemma select_variant_A16_not_selected :
  contains "A16" "NVIDIA A16 / A2" = true ∧
  select_variant "v3.2" (Some "NVIDIA A16 / A2")
  = Ok (artifact_url "v3.2" A2_ENGINE, A2_ENGINE) ∧
  select_variant "v3.2" (Some "NVIDIA A16 / A2")
  ≠ Ok (artifact_url "v3.2" A16_ENGINE, A16_ENGINE).
Proof. vm_compute. repeat split; congruence. Qed.

(** C2 (amended): a GPU model string containing A2 selects the A2 artifact
    URL; a string containing A16 and not A2 selects the A16 artifact URL;
    any other string, the empty one included, raises the unsupported GPU
    model error, and the model step then raises it before any process is
    started or any file is touched: no fallback, no default variant. *)
Theorem select_variant_rule (v gpu : string) :
  (contains "A2" gpu = true →
   select_variant v (Some gpu) = Ok (artifact_url v A2_ENGINE, A2_ENGINE)) ∧
  (contains "A2" gpu = false → contains "A16" gpu = true →
   select_variant v (Some gpu) = Ok (artifact_url v A16_ENGINE, A16_ENGINE)) ∧
  (contains "A2" gpu = false → contains "A16" gpu = false →
   select_variant v (Some gpu) = Raise (ScriptError ("Unsupported GPU model " +:+ gpu)) ∧
   ∀ h model_file u p w, isfile w model_file = false →
     let r := download_and_check_model_file h model_file v (Some gpu) u p w in
     fst r = Raise (ScriptError ("Unsupported GPU model " +:+ gpu)) ∧
     calls (snd r) = calls w ∧ fs (snd r) = fs w).
Proof.
  split; [|split].
  - intros HA2. unfold select_variant, py_in. by rewrite HA2.
  - intros HA2 HA16. unfold select_variant, py_in. by rewrite HA2, HA16.
  - intros HA2 HA16.
    assert (select_variant v (Some gpu)
            = Raise (ScriptError ("Unsupported GPU model " +:+ gpu))) as Hsel.
    { unfold select_variant, py_in. by rewrite HA2, HA16. }
    split; [done|]. intros h model_file u p w Hf. cbv zeta.
    by apply model_step_selection_error.
Qed.

Lemma select_variant_rule_witness :
  select_variant "v3.2" (Some "NVIDIA A2") = Ok (artifact_url "v3.2" A2_ENGINE, A2_ENGINE) ∧
  select_variant "v3.2" (Some "NVIDIA A16-16Q")
  = Ok (artifact_url "v3.2" A16_ENGINE, A16_ENGINE) ∧
  select_variant "v3.2" (Some "") = Raise (ScriptError ("Unsupported GPU model " +:+ "")) ∧
  select_variant "v3.2" (Some "A100")
  = Raise (ScriptError ("Unsupported GPU model " +:+ "A100")).
Proof.
  split; [|split; [|split]].
  - apply (proj1 (select_variant_rule "v3.2" "NVIDIA A2")). reflexivity.
  - apply (proj1 (proj2 (select_variant_rule "v3.2" "NVIDIA A16-16Q"))); reflexivity.
  - apply (proj2 (proj2 (select_variant_rule "v3.2" ""))); reflexivity.
  - apply (proj2 (proj2 (select_variant_rule "v3.2" "A100"))); reflexivity.
Defined.

(** C10: the A2 test comes first, so a GPU model string containing both
    A2 and A16 selects the A2 URL and the A2 download name, and the model
    step downloads that URL. *)
Theorem select_variant_A2_first (v gpu : string) :
  contains "A2" gpu = true → contains "A16" gpu = true →
  select_variant v (Some gpu) = Ok (artifact_url v A2_ENGINE, A2_ENGINE) ∧
  ∀ h model_file u p w, isfile w model_file = false →
    ∃ rest, calls (snd (download_and_check_model_file h model_file v (Some gpu) u p w))
            = calls w ++ download_argv h (artifact_url v A2_ENGINE) u p :: rest.
Proof.
  intros HA2 _.
  assert (select_variant v (Some gpu) = Ok (artifact_url v A2_ENGINE, A2_ENGINE)) as Hsel.
  { unfold select_variant, py_in. by rewrite HA2. }
  split; [done|]. intros h model_file u p w Hf.
  by apply model_step_first_call with (lp := A2_ENGINE).
Qed.

Lemma select_variant_A2_first_witness :
  select_variant "v3.2" (Some "NVIDIA A16 / A2")
  = Ok (artifact_url "v3.2" A2_ENGINE, A2_ENGINE).
Proof.
  apply (select_variant_A2_first "v3.2" "NVIDIA A16 / A2"); reflexivity.
Defined.

(** ** verify_md5 *)

Lemma update_update (h : MD5.hash) (a b : list byte) :
  MD5.update (MD5.update h a) b = MD5.update h (a ++ b).
Proof. unfold MD5.update. simpl. by rewrite app_assoc. Qed.

Lemma update_nil (h : MD5.hash) : MD5.update h [] = h.
Proof. destruct h. unfold MD5.update. simpl. by rewrite app_nil_r. Qed.

(** Reading in chunks of 4096 bytes feeds the whole file to the hash
    object, whatever its length. *)
Lemma read_chunks_update (h : MD5.hash) (data : list byte) :
  read_chunks h data = MD5.update h data.
Proof.
  funelim (read_chunks h data).
  - clear Heqcall. rewrite <-(take_drop 4096 data), e.
    destruct data; [|discriminate e]. simpl. by rewrite update_nil.
  - rewrite H, update_update, <-e, take_drop. done.
Qed.

Lemma verify_md5_eval (w : World) (path : string) (content : list byte) (expected : pyval) :
  fs w !! abspath w path = Some (File content) →
  verify_md5 path expected w =
  if str_eq (MD5.hex (MD5.digest content)) expected
  then (Ok tt, snd (logging INFO ("MD5 check passed for " +:+ path) w))
  else (Raise (ScriptError ("MD5 check failed for " +:+ path +:+ ".")), w).
Proof.
  intros Hf. unfold verify_md5, bind, read_file. rewrite Hf.
  rewrite read_chunks_update. unfold MD5.hexdigest, MD5.update, MD5.new. simpl.
  by destruct (str_eq _ expected).
Qed.

Lemma str_eq_true (s : string) (v : pyval) : str_eq s v = true ↔ v = PStr s.
Proof.
  destruct v; simpl; try (split; [discriminate|congruence]).
  rewrite String.eqb_eq. split; congruence.
Qed.

Example md5_empty : MD5.hexdigest MD5.new = "d41d8cd98f00b204e9800998ecf8427e".
Proof. vm_compute. reflexivity. Qed.

Example md5_abc :
  MD5.hexdigest (MD5.update MD5.new (bytes_of "abc")) = "900150983cd24fb0d6963f7d28e17f72".
Proof. vm_compute. reflexivity. Qed.

Example md5_two_blocks :
  MD5.hexdigest (MD5.update MD5.new (repeat "a"%byte 70)) = "0f5c6c4e740bfcc08c3c26ccb2673d46".
Proof. vm_compute. reflexivity. Qed.

Example md5_two_chunks :
  MD5.hex (MD5.digest big_content) = "7aaa7dec709fa4fa82f3746abfd80bdb".
Proof. vm_compute. reflexivity. Qed.

(** C6: for a file whose content hashes to the digest D, verify_md5
    succeeds on D and raises the integrity error on every other expected
    value; the empty file hashes to the standard empty MD5 value, and the
    statement holds for files of any length, those of more than one
    4096-byte chunk included. *)
Theorem verify_md5_correct (w : World) (path : string) (content : list byte) :
  fs w !! abspath w path = Some (File content) →
  verify_md5 path (PStr (MD5.hex (MD5.digest content))) w
  = (Ok tt, snd (logging INFO ("MD5 check passed for " +:+ path) w)) ∧
  (∀ D', D' ≠ PStr (MD5.hex (MD5.digest content)) →
     verify_md5 path D' w
     = (Raise (ScriptError ("MD5 check failed for " +:+ path +:+ ".")), w)) ∧
  (content = [] → MD5.hex (MD5.digest content) = "d41d8cd98f00b204e9800998ecf8427e").
Proof.
  intros Hf. split; [|split].
  - rewrite (verify_md5_eval w path content) by done.
    by rewrite (proj2 (str_eq_true _ _) eq_refl).
  - intros D' HD'. rewrite (verify_md5_eval w path content) by done.
    destruct (str_eq _ D') eqn:He; [|done].
    by apply str_eq_true in He.
  - intros ->. vm_compute. reflexivity.
Qed.

Lemma verify_md5_correct_witness :
  (verify_md5 "empty.bin" (PStr (MD5.hex (MD5.digest []))) files_world
   = (Ok tt, snd (logging INFO ("MD5 check passed for " +:+ "empty.bin") files_world))) ∧
  (verify_md5 "big.bin" (PStr (MD5.hex (MD5.digest big_content))) files_world
   = (Ok tt, snd (logging INFO ("MD5 check passed for " +:+ "big.bin") files_world))) ∧
  (4096 < length big_content)%nat.
Proof.
  split; [|split].
  - apply (verify_md5_correct files_world "empty.bin" []). reflexivity.
  - apply (verify_md5_correct files_world "big.bin" big_content). reflexivity.
  - vm_compute. lia.
Defined.

Lemma hex_digit_lower (n : Z) : lower_char (MD5.hex_digit n) = MD5.hex_digit n.
Proof.
  unfold MD5.hex_digit. generalize (Z.to_nat n) as k. intros k.
  do 16 (destruct k as [|k]; [reflexivity|]). reflexivity.
Qed.

(** hexdigest() is in lower case. *)
Lemma hex_lower (bs : list Z) : lower (MD5.hex bs) = MD5.hex bs.
Proof.
  induction bs as [|b bs IH]; [done|].
  cbn [MD5.hex lower]. by rewrite !hex_digit_lower, IH.
Qed.

(** C9: the comparison of verify_md5 is exact string equality with the
    lower-case hexadecimal digest.  The digest is its own lower-case
    form, and an expected value that is a differently-cased rendering of
    it (equal to it up to case, yet not the same string) makes
    verification raise the integrity error although the content
    matches. *)
Theorem verify_md5_case_sensitive (w : World) (path : string) (content : list byte)
    (expected : string) :
  fs w !! abspath w path = Some (File content) →
  lower expected = MD5.hex (MD5.digest content) →
  expected ≠ MD5.hex (MD5.digest content) →
  lower (MD5.hex (MD5.digest content)) = MD5.hex (MD5.digest content) ∧
  verify_md5 path (PStr expected) w
  = (Raise (ScriptError ("MD5 check failed for " +:+ path +:+ ".")), w).
Proof.
  intros Hf _ Hne. split; [apply hex_lower|].
  rewrite (verify_md5_eval w path content) by done.
  destruct (str_eq _ (PStr expected)) eqn:He; [|done].
  apply str_eq_true in He. congruence.
Qed.

Lemma verify_md5_case_sensitive_witness :
  lower (MD5.hex (MD5.digest [])) = MD5.hex (MD5.digest []) ∧
  verify_md5 "empty.bin" (PStr "D41D8CD98F00B204E9800998ECF8427E") files_world
  = (Raise (ScriptError ("MD5 check failed for " +:+ "empty.bin" +:+ ".")), files_world).
Proof.
  apply (verify_md5_case_sensitive files_world "empty.bin" []
           "D41D8CD98F00B204E9800998ECF8427E").
  - reflexivity.
  - vm_compute. reflexivity.
  - vm_compute. discriminate.
Defined.

(** ** The idempotency guard *)

(** C5: when the label file (respectively the model file) is already at
    its destination, the step returns at once: it starts no process, so
    neither a download nor a checksum query happens, the file system and
    the working directory are unchanged, and the existing file is not
    verified; one line is logged. *)
Theorem skip_if_exists (h : Host) (w : World) (v : string) (u p : pyval) :
  (∀ label_file, isfile w label_file = true →
     let r := download_and_check_label_file h label_file v u p w in
     fst r = Ok tt ∧ calls (snd r) = calls w ∧ fs (snd r) = fs w ∧
     cwd (snd r) = cwd w ∧
     log (snd r) = log w ++ [(INFO, "Label file already exists. Skipping download.")]) ∧
  (∀ model_file gpu, isfile w model_file = true →
     let r := download_and_check_model_file h model_file v gpu u p w in
     fst r = Ok tt ∧ calls (snd r) = calls w ∧ fs (snd r) = fs w ∧
     cwd (snd r) = cwd w ∧
     log (snd r) = log w ++ [(INFO, "Model file already exists. Skipping download.")]).
Proof.
  split.
  - intros label_file Hf. cbv zeta.
    unfold download_and_check_label_file, bind, os_path_isfile. by rewrite Hf.
  - intros model_file gpu Hf. cbv zeta. by rewrite model_step_present.
Qed.

Lemma skip_if_exists_witness :
  calls (snd (download_and_check_label_file (demo_host ExitNonZero PNone)
                "/output/deepstream_models/v3.2/labels.txt" "v3.2"
                (PStr "u") (PStr "p") staged_world)) = calls staged_world ∧
  calls (snd (download_and_check_model_file (demo_host ExitNonZero PNone)
                (model_file_of "v3.2") "v3.2" None
                (PStr "u") (PStr "p") staged_world)) = calls staged_world.
Proof.
  split.
  - apply (proj1 (skip_if_exists (demo_host ExitNonZero PNone) staged_world "v3.2"
                    (PStr "u") (PStr "p"))
             "/output/deepstream_models/v3.2/labels.txt").
    vm_compute. reflexivity.
  - apply (proj2 (skip_if_exists (demo_host ExitNonZero PNone) staged_world "v3.2"
                    (PStr "u") (PStr "p"))
             (model_file_of "v3.2") None).
    vm_compute. reflexivity.
Defined.

(** ** The label step *)

(** Without the label file, the label step starts exactly one process,
    the download: the storage API is never asked for a checksum. *)
Lemma label_step_calls (h : Host) (label_file v : string) (u p : pyval) (w : World) :
  isfile w label_file = false →
  calls (snd (download_and_check_label_file h label_file v u p w))
  = calls w ++ [download_argv h (artifact_url v "labels.txt") u p].
Proof.
  intros Hf. unfold download_and_check_label_file.
  unfold bind at 1. unfold os_path_isfile. rewrite Hf. cbn [negb].
  unfold bind. cbn [logging]. by rewrite run_curl_command_calls.
Qed.

(** C3, on the code: with the label file absent and a storage API that
    reports the MD5 [00] for every artifact, the label step succeeds,
    its only process is the download, and the file (whose MD5 is not
    [00]) is installed at the label path. *)
Theorem label_step_downloads_without_verifying :
  let h := demo_host a16_listing (PStr "00") in
  let label_file := "/output/deepstream_models/v3.2/labels.txt" in
  let r := download_and_check_label_file h label_file "v3.2" (PStr "u") (PStr "p")
             ready_world in
  fst (get_jfrog_checksum h (STORAGE_API +:+ "v3.2" +:+ "/" +:+ "labels.txt")
         (PStr "u") (PStr "p") ready_world) = Ok (PStr "00") ∧
  MD5.hex (MD5.digest (bytes_of "person")) = "8b0a44048f58988b486bdd0d245b22a8" ∧
  fst r = Ok tt ∧
  calls (snd r)
  = [download_argv h (artifact_url "v3.2" "labels.txt") (PStr "u") (PStr "p")] ∧
  fs (snd r) !! label_file = Some (File (bytes_of "person")).
Proof. vm_compute. repeat split; reflexivity. Qed.

(** ** Paths *)

Lemma basename_app (x name : string) :
  mem_char slash name = false → basename (x +:+ String slash name) = name.
Proof.
  intros Hn. induction x as [|c x IH].
  - rewrite str_app_nil_l. cbn [basename]. rewrite Hn.
    unfold slash. by rewrite Ascii.eqb_refl.
  - rewrite str_app_cons. cbn [basename].
    rewrite mem_char_app. cbn [mem_char]. unfold slash at 2.
    rewrite Ascii.eqb_refl, orb_true_r. done.
Qed.

Lemma dirname_app (x name : string) :
  mem_char slash name = false → dirname (x +:+ String slash name) = x.
Proof.
  intros Hn. induction x as [|c x IH].
  - rewrite str_app_nil_l. cbn [dirname]. by rewrite Hn.
  - rewrite str_app_cons. cbn [dirname].
    rewrite mem_char_app. cbn [mem_char]. unfold slash at 2.
    rewrite Ascii.eqb_refl, orb_true_r. by rewrite IH.
Qed.

Lemma abspath_relative (w : World) (name : string) :
  mem_char slash name = false → abspath w name = cwd w +:+ String slash name.
Proof.
  intros Hn. unfold abspath. destruct name as [|c t]; [done|].
  cbn [String.prefix]. destruct (ascii_dec "/" c) as [<-|]; [|done].
  cbn [mem_char] in Hn. unfold slash in Hn. by rewrite Ascii.eqb_refl in Hn.
Qed.

Lemma str_app_neq (x y : string) : y ≠ "" → x +:+ y ≠ x.
Proof.
  intros Hy Heq. apply (f_equal String.length) in Heq.
  rewrite str_app_length in Heq. destruct y; [done|]. simpl in Heq. lia.
Qed.

Lemma artifact_url_basename (v name : string) :
  mem_char slash name = false → basename (artifact_url v name) = name.
Proof.
  intros Hn. unfold artifact_url. rewrite <-str_app_assoc.
  by apply basename_app.
Qed.

Lemma select_variant_Ok (v : string) (gpu : option string) (url lp : string) :
  select_variant v gpu = Ok (url, lp) →
  (lp = A2_ENGINE ∨ lp = A16_ENGINE) ∧ url = artifact_url v lp.
Proof.
  unfold select_variant. destruct (py_in "A2" gpu) as [[]|]; [| |done].
  - intros [= <- <-]. auto.
  - destruct (py_in "A16" gpu) as [[]|]; [|done..].
    intros [= <- <-]. auto.
Qed.

(** ** The download and the checksum query, evaluated *)

Lemma bind_Ok {A B} (m : M A) (k : A → M B) (w w' : World) (a : A) :
  m w = (Ok a, w') → bind m k w = k a w'.
Proof. intros H. unfold bind. by rewrite H. Qed.

Lemma bind_Raise {A B} (m : M A) (k : A → M B) (w w' : World) (e : exn) :
  m w = (Raise e, w') → bind m k w = (Raise e, w').
Proof. intros H. unfold bind. by rewrite H. Qed.

Lemma try_except_Ok {A} (m : M A) (k : exn → M A) (w w' : World) (a : A) :
  m w = (Ok a, w') → try_except m k w = (Ok a, w').
Proof. intros H. unfold try_except. by rewrite H. Qed.

Lemma curl_output_eval (name : string) (body : list byte) (w : World) :
  isdir w name = false →
  curl_output name body w = (Ok tt, set_fs (<[abspath w name := File body]> (fs w)) w).
Proof. intros H. unfold curl_output. by rewrite H. Qed.

Lemma os_rename_eval (src dst : string) (c : list byte) (w : World) :
  fs w !! abspath w src = Some (File c) →
  isdir w dst = false → parent_ok w dst = true →
  os_rename src dst w
  = (Ok tt, set_fs (<[abspath w dst := File c]> (delete (abspath w src) (fs w))) w).
Proof. intros H1 H2 H3. unfold os_rename. by rewrite H1, H2, H3. Qed.

(** A download whose local name is the name curl wrote: the rename is in
    place and the body ends up under that name in the working
    directory. *)
Lemma run_curl_command_in_place (h : Host) (url : string) (u p : pyval) (lp : string)
    (body : list byte) (w : World) :
  cwd w = "/output" → fs w !! "/output" = Some Dir →
  mem_char slash lp = false → basename url = lp →
  isdir w lp = false →
  curl_download h url (userpass h u p) = Exit0 body →
  run_curl_command h url u p lp w
  = (Ok tt, {| fs := <["/output" +:+ String slash lp := File body]> (fs w);
               cwd := cwd w;
               log := log w ++ [(INFO, "Downloaded file to " +:+ lp)];
               calls := calls w ++ [download_argv h url u p] |}).
Proof.
  intros Hcwd Hout Hlp Hbase Hdir Hget.
  assert ("/output" +:+ String slash lp ≠ "/output") as Hne by (by apply str_app_neq).
  unfold run_curl_command. cbv zeta. rewrite Hget, Hbase.
  set (w1 := snd (record_call (download_argv h url u p) w)).
  set (w2 := set_fs (<[abspath w1 lp := File body]> (fs w1)) w1).
  assert (abspath w1 lp = "/output" +:+ String slash lp) as Habs1.
  { rewrite abspath_relative by done. unfold w1. cbn. by rewrite Hcwd. }
  assert (abspath w2 lp = "/output" +:+ String slash lp) as Habs2.
  { rewrite abspath_relative by done. unfold w2, w1. cbn. by rewrite Hcwd. }
  erewrite try_except_Ok; [reflexivity|].
  erewrite bind_Ok; [|reflexivity].
  erewrite bind_Ok; [|apply curl_output_eval; exact Hdir].
  fold w1 w2.
  erewrite bind_Ok; cycle 1.
  { apply (os_rename_eval lp lp body w2).
    - rewrite Habs2. unfold w2. cbn [fs set_fs]. rewrite Habs1.
      apply lookup_insert_eq.
    - unfold isdir. rewrite Habs2. unfold w2. cbn [fs set_fs]. rewrite Habs1.
      by rewrite lookup_insert_eq.
    - unfold parent_ok. rewrite Habs2, dirname_app by done.
      unfold isdir. unfold w2. cbn [fs set_fs]. rewrite Habs1.
      change (abspath _ "/output") with "/output".
      rewrite lookup_insert_ne by done. unfold w1. cbn [fs record_call snd].
      by rewrite Hout. }
  unfold logging, set_fs. cbn [fs cwd log calls]. rewrite Habs2.
  assert (fs w2 = <["/output" +:+ String slash lp := File body]> (fs w)) as ->.
  { unfold w2. cbn [fs set_fs]. by rewrite Habs1. }
  by rewrite insert_delete_eq, insert_insert_eq.
Qed.

Lemma get_jfrog_checksum_eval (h : Host) (url : string) (u p : pyval) (out : string)
    (js cs reported : pyval) (w : World) :
  curl_stdout h url (userpass h u p) = Exit0 out →
  json_loads h out = Some js →
  subscript js "checksums" = Ok cs →
  subscript cs "md5" = Ok reported →
  get_jfrog_checksum h url u p w
  = (Ok reported, {| fs := fs w; cwd := cwd w; log := log w;
                     calls := calls w ++ [checksum_argv h url u p] |}).
Proof.
  intros Hout Hjs Hcs Hmd5.
  unfold get_jfrog_checksum, try_except, bind, record_call, ret, lift. cbv zeta.
  by rewrite Hout, Hjs, Hcs, Hmd5.
Qed.

(** ** What the steps leave alone: the working directory and directories *)

Lemma stable_same {A} (m : M A) :
  (∀ w, cwd (snd (m w)) = cwd w ∧ fs (snd (m w)) = fs w) → stable m.
Proof. intros H w. destruct (H w) as [Hc Hf]. rewrite Hf. auto. Qed.

Lemma stable_ret {A} (a : A) : stable (ret a).
Proof. by apply stable_same. Qed.

Lemma stable_raise {A} (e : exn) : stable (@raise A e).
Proof. by apply stable_same. Qed.

Lemma stable_lift {A} (r : result A) : stable (lift r).
Proof. by apply stable_same. Qed.

Lemma stable_logging (l : level) (msg : string) : stable (logging l msg).
Proof. by apply stable_same. Qed.

Lemma stable_record_call (argv : list string) : stable (record_call argv).
Proof. by apply stable_same. Qed.

Lemma stable_os_path_isfile (p : string) : stable (os_path_isfile p).
Proof. by apply stable_same. Qed.

Lemma stable_os_path_exists (p : string) : stable (os_path_exists p).
Proof. by apply stable_same. Qed.

Lemma stable_curl_output (name : string) (body : list byte) :
  stable (curl_output name body).
Proof.
  intros w. unfold curl_output, isdir.
  destruct (fs w !! abspath w name) as [[|]|] eqn:Hn; cbn; (split; [done|]);
    intros d Hd; try done;
    (destruct (decide (abspath w name = d)) as [<-|];
     [congruence|by rewrite lookup_insert_ne]).
Qed.

Lemma stable_os_rename (src dst : string) : stable (os_rename src dst).
Proof.
  intros w. unfold os_rename, isdir.
  destruct (fs w !! abspath w src) as [[c|]|] eqn:Hs; cbn; try done.
  destruct (fs w !! abspath w dst) as [[|]|] eqn:Hd; cbn; try done;
    (destruct (parent_ok w dst); cbn; [|done]); (split; [done|]);
    intros d Hdir;
    (destruct (decide (abspath w dst = d)) as [<-|]; [congruence|]);
    rewrite lookup_insert_ne by done;
    (destruct (decide (abspath w src = d)) as [<-|]; [congruence|]);
    by rewrite lookup_delete_ne.
Qed.

Lemma foldr_insert_Dir (ds : list string) (f : gmap string node) (d : string) :
  f !! d = Some Dir → foldr (λ x g, <[x := Dir]> g) f ds !! d = Some Dir.
Proof.
  intros Hd. induction ds as [|x ds IH]; [done|]. cbn [foldr].
  destruct (decide (x = d)) as [->|]; [by rewrite lookup_insert_eq|].
  by rewrite lookup_insert_ne.
Qed.

Lemma stable_os_makedirs (p : string) : stable (os_makedirs p).
Proof.
  intros w. unfold os_makedirs. cbv zeta.
  destruct (_ || _); cbn; [done|]. split; [done|].
  intros d Hd. by apply foldr_insert_Dir.
Qed.

Lemma stable_bind {A B} (m : M A) (k : A → M B) :
  stable m → (∀ a, stable (k a)) → stable (bind m k).
Proof.
  intros Hm Hk w. unfold bind. destruct (Hm w) as [Hc Hf].
  destruct (m w) as [[a|e] w'] eqn:Hmw; cbn in Hc, Hf; [|done].
  destruct (Hk a w') as [Hc' Hf']. split; [congruence|]. auto.
Qed.

Lemma stable_try_except {A} (m : M A) (k : exn → M A) :
  stable m → (∀ e, stable (k e)) → stable (try_except m k).
Proof.
  intros Hm Hk w. unfold try_except. destruct (Hm w) as [Hc Hf].
  destruct (m w) as [[a|e] w'] eqn:Hmw; cbn in Hc, Hf; [done|].
  destruct (Hk e w') as [Hc' Hf']. split; [congruence|]. auto.
Qed.

Create HintDb stable discriminated.
#[local] Hint Resolve stable_ret stable_raise stable_lift stable_logging
  stable_record_call stable_os_path_isfile stable_os_path_exists
  stable_curl_output stable_os_rename stable_os_makedirs : stable.

Ltac stable_step :=
  first [ solve [auto with stable]
        | progress cbv zeta
        | apply stable_bind; [|intros ?]
        | apply stable_try_except; [|intros ?]
        | match goal with |- stable (match ?x with _ => _ end) => destruct x end
        | match goal with |- stable (if ?x then _ else _) => destruct x end ].

Lemma stable_run_curl_command (h : Host) (url : string) (u p : pyval) (lp : string) :
  stable (run_curl_command h url u p lp).
Proof. unfold run_curl_command. repeat stable_step. Qed.

Lemma stable_label_step (h : Host) (label_file v : string) (u p : pyval) :
  stable (download_and_check_label_file h label_file v u p).
Proof.
  unfold download_and_check_label_file.
  repeat first [apply stable_run_curl_command | stable_step].
Qed.

Lemma stable_ensure_model_directory_exists (d : string) :
  stable (ensure_model_directory_exists d).
Proof. unfold ensure_model_directory_exists. repeat stable_step. Qed.

Lemma stable_get_gpu_model (h : Host) : stable (get_gpu_model h).
Proof. unfold get_gpu_model. repeat stable_step. Qed.

(** ** main *)

Lemma bind_inv_Ok {A B} (m : M A) (k : A → M B) (w w' : World) (b : B) :
  bind m k w = (Ok b, w') → ∃ a w1, m w = (Ok a, w1) ∧ k a w1 = (Ok b, w').
Proof.
  unfold bind. destruct (m w) as [[a|e] w1]; [|done]. intros H. by exists a, w1.
Qed.

(** When main reaches the model step, the working directory is /output,
    which is a directory. *)
Lemma main_setup_post (h : Host) (w0 w1 : World) (v : string) (u p : pyval)
    (gpu : option string) :
  main_setup h w0 = (Ok (v, u, p, gpu), w1) →
  cwd w1 = "/output" ∧ fs w1 !! "/output" = Some Dir.
Proof.
  unfold main_setup. intros H.
  apply bind_inv_Ok in H as (cfg & wa & _ & H).
  apply bind_inv_Ok in H as (v' & wb & _ & H).
  apply bind_inv_Ok in H as ([] & wc & _ & H).
  destruct (getenv h "dockerconfigjson") as [dcj|]; [|done].
  destruct (getenv h "JFROG_ENV") as [env|]; [|done].
  destruct (_ || _); [done|].
  apply bind_inv_Ok in H as ([u' p'] & wd & _ & H).
  apply bind_inv_Ok in H as ([] & we & Hcd & H).
  unfold os_chdir in Hcd. destruct (isdir wd "/output") eqn:Hdir; [|done].
  injection Hcd as <-.
  match type of H with ?m _ = _ =>
    assert (stable m) as Hst
      by (repeat first [ apply stable_ensure_model_directory_exists
                       | apply stable_label_step
                       | apply stable_get_gpu_model
                       | stable_step ]) end.
  match type of H with ?m ?w = _ => destruct (Hst w) as [Hc Hf] end.
  rewrite H in Hc, Hf. cbn in Hc, Hf. split; [done|].
  apply Hf. unfold isdir in Hdir. change (abspath wd "/output") with "/output" in Hdir.
  by repeat case_match.
Qed.

Lemma bind_assoc {A B C} (m : M A) (k : A → M B) (k' : B → M C) (w : World) :
  bind (bind m k) k' w = bind m (λ a, bind (k a) k') w.
Proof. unfold bind. destruct (m w) as [[a|e] w']; done. Qed.

Lemma bind_ext {A B} (m : M A) (k k' : A → M B) (w : World) :
  (∀ a w', k a w' = k' a w') → bind m k w = bind m k' w.
Proof. intros H. unfold bind. destruct (m w) as [[a|e] w']; [apply H|done]. Qed.

(** main_body is main_setup followed by the model step. *)
Lemma main_body_split (h : Host) (w : World) :
  main_body h w
  = bind (main_setup h)
      (λ ctx, let '(v, u, p, gpu) := ctx in
              download_and_check_model_file h (model_file_of v) v gpu u p) w.
Proof.
  unfold main_body, main_setup.
  rewrite bind_assoc. apply bind_ext. intros cfg wa.
  rewrite bind_assoc. apply bind_ext. intros v wb.
  rewrite bind_assoc. apply bind_ext. intros [] wc.
  destruct (getenv h "dockerconfigjson") as [dcj|]; [|done].
  destruct (getenv h "JFROG_ENV") as [env|]; [|done].
  destruct (_ || _); [done|].
  rewrite bind_assoc. apply bind_ext. intros [u p] wd.
  rewrite bind_assoc. apply bind_ext. intros [] we.
  rewrite bind_assoc. apply bind_ext. intros ? wf.
  rewrite bind_assoc. apply bind_ext. intros [] wg.
  rewrite bind_assoc. apply bind_ext. intros gpu wh.
  reflexivity.
Qed.

Lemma model_file_absolute (w : World) (v : string) :
  abspath w (model_file_of v) = model_file_of v.
Proof. reflexivity. Qed.

Lemma model_file_not_download_name (v lp : string) :
  lp = A2_ENGINE ∨ lp = A16_ENGINE →
  "/output" +:+ String slash lp ≠ model_file_of v.
Proof.
  intros [->| ->] H; apply (f_equal (String.get 8)) in H; vm_compute in H;
    discriminate H.
Qed.

(** The model step on a checksum mismatch: the integrity error, with the
    download left under its download name. *)
Lemma model_step_md5_mismatch (h : Host) (w : World) (v : string) (u p : pyval)
    (gpu : option string) (url lp : string) (body : list byte) (out : string)
    (js cs reported : pyval) :
  cwd w = "/output" → fs w !! "/output" = Some Dir →
  isfile w (model_file_of v) = false →
  select_variant v gpu = Ok (url, lp) →
  isdir w lp = false →
  curl_download h url (userpass h u p) = Exit0 body →
  curl_stdout h (STORAGE_API +:+ v +:+ "/" +:+ lp) (userpass h u p) = Exit0 out →
  json_loads h out = Some js →
  subscript js "checksums" = Ok cs →
  subscript cs "md5" = Ok reported →
  reported ≠ PStr (MD5.hex (MD5.digest body)) →
  download_and_check_model_file h (model_file_of v) v gpu u p w
  = (Raise (ScriptError ("MD5 check failed for " +:+ lp +:+ ".")),
     {| fs := <["/output" +:+ String slash lp := File body]> (fs w);
        cwd := cwd w;
        log := log w ++
               [(INFO, "Model file not found. Downloading model file for GPU model...");
                (INFO, "Downloaded file to " +:+ lp)];
        calls := calls w ++
                 [download_argv h url u p;
                  checksum_argv h (STORAGE_API +:+ v +:+ "/" +:+ lp) u p] |}).
Proof.
  intros Hcwd Hout Hf Hsel Hdir Hget Hstdout Hjs Hcs Hmd5 Hne.
  destruct (select_variant_Ok _ _ _ _ Hsel) as [Hlp ->].
  assert (mem_char slash lp = false) as Hns by (by destruct Hlp as [-> | ->]).
  assert (basename lp = lp) as Hbl by (by destruct Hlp as [-> | ->]).
  rewrite model_step_absent by done.
  erewrite bind_Ok; [|unfold lift; by rewrite Hsel]. cbv zeta iota beta.
  erewrite bind_Ok; cycle 1.
  { apply run_curl_command_in_place with (body := body); try done.
    by apply artifact_url_basename. }
  rewrite Hbl.
  erewrite bind_Ok; cycle 1.
  { by eapply get_jfrog_checksum_eval. }
  erewrite bind_Raise; cycle 1.
  { rewrite (verify_md5_eval _ lp body).
    - destruct (str_eq _ reported) eqn:He; [|reflexivity].
      by apply str_eq_true in He.
    - rewrite abspath_relative by done. cbn [fs cwd logging snd]. rewrite Hcwd.
      apply lookup_insert_eq. }
  cbn [logging snd fs cwd log calls]. by rewrite <-!app_assoc.
Qed.

(** C4: when main reaches the model step without a model file, the
    download succeeds and the MD5 reported by the storage API differs
    from the MD5 of the downloaded file, the process exits with status 1,
    the last line logged is the MD5 check failure at level ERROR, the
    downloaded file is left under its download name in /output, and
    nothing is renamed to the final model path, which still holds no
    file. *)
Theorem main_md5_mismatch (h : Host) (w0 w1 : World) (v : string) (u p : pyval)
    (gpu : option string) (url lp : string) (body : list byte) (out : string)
    (js cs reported : pyval) :
  main_setup h w0 = (Ok (v, u, p, gpu), w1) →
  isfile w1 (model_file_of v) = false →
  select_variant v gpu = Ok (url, lp) →
  isdir w1 lp = false →
  curl_download h url (userpass h u p) = Exit0 body →
  curl_stdout h (STORAGE_API +:+ v +:+ "/" +:+ lp) (userpass h u p) = Exit0 out →
  json_loads h out = Some js →
  subscript js "checksums" = Ok cs →
  subscript cs "md5" = Ok reported →
  reported ≠ PStr (MD5.hex (MD5.digest body)) →
  ∃ w2, main h w0 = (1, w2) ∧
        log w2 = log w1 ++
                 [(INFO, "Model file not found. Downloading model file for GPU model...");
                  (INFO, "Downloaded file to " +:+ lp);
                  (ERROR, "MD5 check failed for " +:+ lp +:+ ".")] ∧
        fs w2 !! ("/output/" +:+ lp) = Some (File body) ∧
        fs w2 !! model_file_of v = fs w1 !! model_file_of v ∧
        isfile w2 (model_file_of v) = false.
Proof.
  intros Hsetup Hf Hsel Hdir Hget Hstdout Hjs Hcs Hmd5 Hne.
  destruct (main_setup_post _ _ _ _ _ _ _ Hsetup) as [Hcwd Hout].
  destruct (select_variant_Ok _ _ _ _ Hsel) as [Hlp _].
  pose proof (model_file_not_download_name v lp Hlp) as Hpath.
  eexists. split; [|split; [|split; [|split]]].
  - unfold main. rewrite main_body_split.
    erewrite bind_Ok; [|exact Hsetup]. cbv iota beta.
    erewrite model_step_md5_mismatch by done. reflexivity.
  - cbn [logging snd fs cwd log calls]. by rewrite <-app_assoc.
  - cbn [logging snd fs cwd log calls].
    change ("/output/" +:+ lp) with ("/output" +:+ String slash lp).
    apply lookup_insert_eq.
  - cbn [logging snd fs cwd log calls]. by rewrite lookup_insert_ne.
  - unfold isfile in *. rewrite model_file_absolute in *.
    cbn [logging snd fs cwd log calls]. by rewrite lookup_insert_ne.
Qed.

Lemma main_md5_mismatch_witness :
  ∃ w2, main mismatch_host demo_world = (1, w2) ∧
        log w2 = log (snd (main_setup mismatch_host demo_world)) ++
                 [(INFO, "Model file not found. Downloading model file for GPU model...");
                  (INFO, "Downloaded file to " +:+ A16_ENGINE);
                  (ERROR, "MD5 check failed for " +:+ A16_ENGINE +:+ ".")] ∧
        fs w2 !! ("/output/" +:+ A16_ENGINE) = Some (File demo_engine) ∧
        fs w2 !! model_file_of "v3.2"
        = fs (snd (main_setup mismatch_host demo_world)) !! model_file_of "v3.2" ∧
        isfile w2 (model_file_of "v3.2") = false.
Proof.
  refine (main_md5_mismatch mismatch_host demo_world
            (snd (main_setup mismatch_host demo_world))
            "v3.2" (PStr "u") (PStr "p") (Some "NVIDIA A16-16Q (UUID: GPU-7c1f)")
            (artifact_url "v3.2" A16_ENGINE) A16_ENGINE demo_engine "checksums"
            (PDict {[ "checksums" := PDict {[ "md5" := PStr "00" ]} ]})
            (PDict {[ "md5" := PStr "00" ]}) (PStr "00") _ _ _ _ _ _ _ _ _ _).
  - vm_compute. reflexivity.
  - vm_compute. reflexivity.
  - vm_compute. reflexivity.
  - vm_compute. reflexivity.
  - vm_compute. reflexivity.
  - vm_compute. reflexivity.
  - vm_compute. reflexivity.
  - vm_compute. reflexivity.
  - vm_compute. reflexivity.
  - vm_compute. discriminate.
Defined.

(** ** The scenarios of the specification, evaluated *)

(** The end-to-end scenario: version v3.2, registry [prod], an A16 GPU
    and a matching checksum: the A16 engine is downloaded, verified and
    renamed to its final name, and the exit status is 0. *)
Example main_scenario :
  let r := main (demo_host a16_listing (PStr demo_engine_md5)) demo_world in
  fst r = 0 ∧
  fs (snd r) !! model_file_of "v3.2" = Some (File demo_engine) ∧
  fs (snd r) !! ("/output/" +:+ A16_ENGINE) = None ∧
  last (calls (snd r))
  = Some (checksum_argv (demo_host a16_listing (PStr demo_engine_md5))
            (STORAGE_API +:+ "v3.2" +:+ "/" +:+ A16_ENGINE) (PStr "u") (PStr "p")).
Proof. vm_compute. repeat split; reflexivity. Qed.

(** A GPU listing without [": "] makes get_gpu_model return None; the
    membership test of the model step then raises a TypeError, which main
    reports as an unexpected error. *)
Example main_probe_without_match :
  let r := main (demo_host (Exit0 "No devices were found") (PStr demo_engine_md5))
             demo_world in
  fst r = 1 ∧
  last (log (snd r))
  = Some (ERROR, "Unexpected error: argument of type 'NoneType' is not iterable").
Proof. vm_compute. repeat split; reflexivity. Qed.

(** * Further properties of the script *)

#[local] Arguments exn_str : simpl never.

(** ** read_yaml_config *)

Lemma read_yaml_config_world (h : Host) (file_path : string) (w : World) :
  snd (read_yaml_config h file_path w) = w.
Proof.
  unfold read_yaml_config, bind, read_file, lift.
  by repeat (case_match; simplify_eq/=).
Qed.

Lemma read_yaml_config_Ok (h : Host) (file_path : string) (w : World) (v : pyval) :
  fst (read_yaml_config h file_path w) = Ok v ↔
  ∃ text cfg prop,
    fs w !! abspath w file_path = Some (File text) ∧
    yaml_full_load h text = Some (PDict cfg) ∧
    cfg !! "property" = Some (PDict prop) ∧
    prop !! "model-engine-file" = Some v.
Proof.
  unfold read_yaml_config, bind, read_file, lift. split.
  - destruct (fs w !! abspath w file_path) as [[text|]|] eqn:Hf; try done.
    destruct (yaml_full_load h text) as [cfg|] eqn:Hy; [|done].
    destruct (subscript cfg "property") as [prop|] eqn:Hp; [|done].
    cbn. intros Hv.
    apply subscript_Ok in Hp as (dc & -> & Hp).
    apply subscript_Ok in Hv as (dp & -> & Hv).
    by exists text, dc, dp.
  - intros (text & cfg & prop & -> & -> & Hp & Hv). cbn. rewrite Hp. cbn. by rewrite Hv.
Qed.

(** X1: read_yaml_config only reads: it leaves the world as it found it.
    It returns [config['property']['model-engine-file']] exactly when the
    file is a regular file whose content parses to a mapping with a
    mapping under [property] that has the key; a path that is no
    regular file raises an OSError, and a parsed mapping without
    [property] raises the KeyError of that key. *)
Theorem read_yaml_config_reads_only (h : Host) (file_path : string) (w : World) :
  snd (read_yaml_config h file_path w) = w ∧
  (∀ v, fst (read_yaml_config h file_path w) = Ok v ↔
        ∃ text cfg prop,
          fs w !! abspath w file_path = Some (File text) ∧
          yaml_full_load h text = Some (PDict cfg) ∧
          cfg !! "property" = Some (PDict prop) ∧
          prop !! "model-engine-file" = Some v) ∧
  (isfile w file_path = false →
   fst (read_yaml_config h file_path w) = Raise (OSError file_path)) ∧
  (∀ text cfg, fs w !! abspath w file_path = Some (File text) →
     yaml_full_load h text = Some (PDict cfg) → cfg !! "property" = None →
     fst (read_yaml_config h file_path w) = Raise (KeyError "property")).
Proof.
  split; [apply read_yaml_config_world|]. split; [apply read_yaml_config_Ok|]. split.
  - unfold isfile, read_yaml_config, bind, read_file.
    by destruct (fs w !! abspath w file_path) as [[text|]|].
  - intros text cfg Hf Hy Hp. unfold read_yaml_config, bind, read_file, lift.
    rewrite Hf, Hy. cbn. by rewrite Hp.
Qed.

(** ** run_curl_command and get_jfrog_checksum, case by case *)

Lemma try_except_Raise {A} (m : M A) (k : exn → M A) (w w' : World) (e : exn) :
  m w = (Raise e, w') → try_except m k w = k e w'.
Proof. intros H. unfold try_except. by rewrite H. Qed.

Lemma abspath_cwd (w w' : World) (p : string) : cwd w' = cwd w → abspath w' p = abspath w p.
Proof. intros H. unfold abspath. by rewrite H. Qed.

(** Either the download and the rename succeed, or the error is a
    ScriptError and at most the downloaded file has been written. *)
Lemma run_curl_command_cases (h : Host) (url : string) (u p : pyval) (lp : string)
    (w : World) :
  (∃ body,
     curl_download h url (userpass h u p) = Exit0 body ∧
     run_curl_command h url u p lp w
     = (Ok tt,
        {| fs := <[abspath w lp := File body]>
                   (delete (abspath w (basename url))
                      (<[abspath w (basename url) := File body]> (fs w)));
           cwd := cwd w;
           log := log w ++ [(INFO, "Downloaded file to " +:+ lp)];
           calls := calls w ++ [download_argv h url u p] |})) ∨
  (∃ e w',
     run_curl_command h url u p lp w
     = (Raise (ScriptError ("Error downloading file: " +:+ exn_str e)), w') ∧
     cwd w' = cwd w ∧ log w' = log w ∧
     calls w' = calls w ++ [download_argv h url u p] ∧
     (fs w' = fs w ∨
      ∃ body, curl_download h url (userpass h u p) = Exit0 body ∧
              fs w' = <[abspath w (basename url) := File body]> (fs w))).
Proof.
  unfold run_curl_command. cbv zeta.
  set (w1 := snd (record_call (download_argv h url u p) w)).
  assert (record_call (download_argv h url u p) w = (Ok tt, w1)) as Hrec by done.
  assert (∀ q, abspath w1 q = abspath w q) as Habs by done.
  destruct (curl_download h url (userpass h u p)) as [body| |] eqn:Hget.
  - destruct (isdir w1 (basename url)) eqn:Hdir.
    + right. exists (CalledProcessError "curl"), w1.
      erewrite try_except_Raise; cycle 1.
      { erewrite bind_Ok; [|exact Hrec]. apply bind_Raise.
        unfold curl_output. by rewrite Hdir. }
      unfold raise. cbn. repeat split; auto.
    + set (w2 := set_fs (<[abspath w1 (basename url) := File body]> (fs w1)) w1).
      assert (curl_output (basename url) body w1 = (Ok tt, w2)) as Hout
        by (by apply curl_output_eval).
      assert (fs w2 !! abspath w2 (basename url) = Some (File body)) as Hsrc.
      { unfold w2. cbn. apply lookup_insert_eq. }
      destruct (isdir w2 lp || negb (parent_ok w2 lp)) eqn:Hchk.
      * right. exists (OSError lp), w2.
        erewrite try_except_Raise; cycle 1.
        { erewrite bind_Ok; [|exact Hrec]. erewrite bind_Ok; [|exact Hout].
          apply bind_Raise. unfold os_rename. by rewrite Hsrc, Hchk. }
        unfold raise. cbn. repeat split; try done. right. exists body. by rewrite Habs.
      * left. exists body. split; [done|].
        apply orb_false_elim in Hchk as [Hd Hp]. apply negb_false_iff in Hp.
        erewrite try_except_Ok; [reflexivity|].
        erewrite bind_Ok; [|exact Hrec]. erewrite bind_Ok; [|exact Hout].
        erewrite bind_Ok; [|by apply (os_rename_eval _ _ body)].
        unfold logging, set_fs, w2. cbn. by rewrite !Habs.
  - right. exists (CalledProcessError "curl"), w1.
    erewrite try_except_Raise; cycle 1.
    { erewrite bind_Ok; [|exact Hrec]. by apply bind_Raise. }
    unfold raise. cbn. repeat split; auto.
  - right. exists (OSError "curl"), w1.
    erewrite try_except_Raise; cycle 1.
    { erewrite bind_Ok; [|exact Hrec]. by apply bind_Raise. }
    unfold raise. cbn. repeat split; auto.
Qed.

(** Only the download name and the local path can change. *)
Lemma run_curl_command_frame (h : Host) (url : string) (u p : pyval) (lp : string)
    (w : World) (d : string) :
  d ≠ abspath w (basename url) → d ≠ abspath w lp →
  fs (snd (run_curl_command h url u p lp w)) !! d = fs w !! d.
Proof.
  intros Hsrc Hdst.
  destruct (run_curl_command_cases h url u p lp w)
    as [(body & _ & ->)|(e & w' & -> & _ & _ & _ & [Hfs|(body & _ & Hfs)])]; cbn.
  - by rewrite lookup_insert_ne, lookup_delete_ne, lookup_insert_ne.
  - by rewrite Hfs.
  - by rewrite Hfs, lookup_insert_ne.
Qed.

Lemma run_curl_command_cwd (h : Host) (url : string) (u p : pyval) (lp : string)
    (w : World) :
  cwd (snd (run_curl_command h url u p lp w)) = cwd w.
Proof.
  by destruct (run_curl_command_cases h url u p lp w)
    as [(body & _ & ->)|(e & w' & -> & ? & _)].
Qed.

Lemma run_curl_command_inv_Ok (h : Host) (url : string) (u p : pyval) (lp : string)
    (w w' : World) :
  run_curl_command h url u p lp w = (Ok tt, w') →
  ∃ body, curl_download h url (userpass h u p) = Exit0 body ∧
          fs w' !! abspath w lp = Some (File body) ∧ cwd w' = cwd w ∧
          log w' = log w ++ [(INFO, "Downloaded file to " +:+ lp)].
Proof.
  destruct (run_curl_command_cases h url u p lp w)
    as [(body & Hget & ->)|(e & w'' & -> & _)]; [|done].
  intros [= <-]. exists body. cbn. by rewrite lookup_insert_eq.
Qed.

(** X2: run_curl_command starts exactly one process, the [curl -O] of the
    URL; it keeps the working directory; the only paths whose content it
    can change are the download name (the basename of the URL) and the
    local path; whatever fails, the exception it raises is a ScriptError
    whose message starts with [Error downloading file: ]; and when it
    returns, curl had exited with status 0, the body is a regular file at
    the local path and one INFO line was logged. *)
Theorem run_curl_command_contract (h : Host) (url : string) (u p : pyval) (lp : string)
    (w : World) :
  let r := run_curl_command h url u p lp w in
  calls (snd r) = calls w ++ [download_argv h url u p] ∧
  cwd (snd r) = cwd w ∧
  (∀ d, d ≠ abspath w (basename url) → d ≠ abspath w lp →
        fs (snd r) !! d = fs w !! d) ∧
  (∀ e, fst r = Raise e →
        ∃ cause, e = ScriptError ("Error downloading file: " +:+ exn_str cause)) ∧
  (fst r = Ok tt →
   ∃ body, curl_download h url (userpass h u p) = Exit0 body ∧
           fs (snd r) !! abspath w lp = Some (File body) ∧
           log (snd r) = log w ++ [(INFO, "Downloaded file to " +:+ lp)]).
Proof.
  cbv zeta. split; [apply run_curl_command_calls|].
  split; [apply run_curl_command_cwd|].
  split; [intros d; apply run_curl_command_frame|]. split.
  - intros e He.
    destruct (run_curl_command_cases h url u p lp w)
      as [(body & _ & Hr)|(cause & w' & Hr & _)]; rewrite Hr in He; [done|].
    injection He as <-. eauto.
  - intros Hok.
    destruct (run_curl_command h url u p lp w) as [r w'] eqn:Hr. cbn in Hok. subst r.
    destruct (run_curl_command_inv_Ok _ _ _ _ _ _ _ Hr) as (body & ? & ? & _ & ?).
    by exists body.
Qed.

Lemma get_jfrog_checksum_cases (h : Host) (url : string) (u p : pyval) (w : World) :
  snd (get_jfrog_checksum h url u p w)
  = {| fs := fs w; cwd := cwd w; log := log w;
       calls := calls w ++ [checksum_argv h url u p] |} ∧
  ((∃ out js cs v,
      curl_stdout h url (userpass h u p) = Exit0 out ∧
      json_loads h out = Some js ∧ subscript js "checksums" = Ok cs ∧
      subscript cs "md5" = Ok v ∧
      fst (get_jfrog_checksum h url u p w) = Ok v) ∨
   (∃ e, fst (get_jfrog_checksum h url u p w)
         = Raise (ScriptError ("Error fetching JFrog checksum: " +:+ exn_str e)))).
Proof.
  unfold get_jfrog_checksum, try_except, bind, record_call, ret, raise, lift. cbv zeta.
  destruct (curl_stdout h url (userpass h u p)) as [out| |] eqn:Hout; cbn;
    [|split; [done|right; eauto]..].
  destruct (json_loads h out) as [js|] eqn:Hjs; cbn; [|split; [done|right; eauto]].
  destruct (subscript js "checksums") as [cs|e] eqn:Hcs; cbn;
    [|split; [done|right; eauto]].
  destruct (subscript cs "md5") as [v|e] eqn:Hmd5; cbn; [|split; [done|right; eauto]].
  split; [done|]. left. by exists out, js, cs, v.
Qed.

(** X3: get_jfrog_checksum starts exactly one process, the [curl -s] of the
    storage URL, and changes nothing else (files, working directory and
    log stay as they are).  It returns [response['checksums']['md5']]
    exactly when curl exits with status 0 and its output parses to a
    mapping holding that path; every failure is raised as a ScriptError
    whose message starts with [Error fetching JFrog checksum: ]. *)
Theorem get_jfrog_checksum_contract (h : Host) (url : string) (u p : pyval) (w : World) :
  let r := get_jfrog_checksum h url u p w in
  snd r = {| fs := fs w; cwd := cwd w; log := log w;
             calls := calls w ++ [checksum_argv h url u p] |} ∧
  (∀ v, fst r = Ok v ↔
        ∃ out js cs,
          curl_stdout h url (userpass h u p) = Exit0 out ∧
          json_loads h out = Some js ∧ subscript js "checksums" = Ok cs ∧
          subscript cs "md5" = Ok v) ∧
  (∀ e, fst r = Raise e →
        ∃ cause, e = ScriptError ("Error fetching JFrog checksum: " +:+ exn_str cause)).
Proof.
  cbv zeta. destruct (get_jfrog_checksum_cases h url u p w) as [Hw Hr].
  split; [done|]. split.
  - intros v. split.
    + intros Hv. destruct Hr as [(out & js & cs & v' & ? & ? & ? & ? & Hv')|[e He]];
        [|congruence].
      exists out, js, cs. repeat split; try done. congruence.
    + intros (out & js & cs & Hout & Hjs & Hcs & Hmd5).
      by rewrite (get_jfrog_checksum_eval h url u p out js cs v w).
  - intros e He. destruct Hr as [(out & js & cs & v' & ? & ? & ? & ? & Hv')|[c Hc]];
      [congruence|]. rewrite Hc in He. injection He as <-. eauto.
Qed.

(** ** verify_md5 *)

Lemma le_bytes_length (n : nat) (x : Z) : length (MD5.le_bytes n x) = n.
Proof. unfold MD5.le_bytes. by rewrite length_map, length_seq. Qed.

Lemma digest_length (msg : list byte) : length (MD5.digest msg) = 16%nat.
Proof. unfold MD5.digest. cbv zeta. by rewrite !length_app, !le_bytes_length. Qed.

Lemma hex_length (bs : list Z) : String.length (MD5.hex bs) = (2 * length bs)%nat.
Proof. induction bs as [|b bs IH]; [done|]. cbn [MD5.hex String.length length]. lia. Qed.

(** X4: verify_md5 returns only for an expected value that is the
    32-character lower-case hexadecimal MD5 of the file's content; it
    never changes files, the working directory or the process list, and
    leaves the whole world untouched when it raises; on a path that is no
    regular file it raises an OSError, not the integrity error. *)
Theorem verify_md5_accepts_only_the_digest (path : string) (expected : pyval) (w : World) :
  let r := verify_md5 path expected w in
  fs (snd r) = fs w ∧ calls (snd r) = calls w ∧ cwd (snd r) = cwd w ∧
  (fst r = Ok tt →
   ∃ content s,
     fs w !! abspath w path = Some (File content) ∧
     expected = PStr s ∧ s = MD5.hex (MD5.digest content) ∧
     String.length s = 32%nat ∧ lower s = s) ∧
  (∀ e, fst r = Raise e → snd r = w) ∧
  (isfile w path = false → fst r = Raise (OSError path)).
Proof.
  cbv zeta. unfold isfile.
  destruct (fs w !! abspath w path) as [[content|]|] eqn:Hf.
  - rewrite (verify_md5_eval w path content) by done.
    destruct (str_eq _ expected) eqn:He; cbn; repeat split; try done.
    intros _. apply str_eq_true in He. exists content, (MD5.hex (MD5.digest content)).
    repeat split; try done; try apply hex_lower.
    all: by rewrite hex_length, digest_length.
  - unfold verify_md5, bind, read_file. rewrite Hf. by cbn.
  - unfold verify_md5, bind, read_file. rewrite Hf. by cbn.
Qed.

(** ** ensure_model_directory_exists *)

Lemma prefix_slash_app (s t : string) :
  String.prefix "/" s = true → String.prefix "/" (s +:+ t) = true.
Proof.
  intros [b ->]%prefix_spec. apply prefix_spec. exists (b +:+ t).
  by rewrite str_app_assoc.
Qed.

Lemma ancestors_from_absolute (p seen d : string) :
  String.prefix "/" seen = true → d ∈ ancestors_from seen p →
  String.prefix "/" d = true.
Proof.
  revert seen. induction p as [|c t IH]; intros seen Hs; cbn [ancestors_from].
  - by intros ?%elem_of_nil.
  - intros [Hd|Hd]%elem_of_app.
    + destruct (_ && _); [|by apply elem_of_nil in Hd].
      by apply list_elem_of_singleton in Hd as ->.
    + apply (IH (seen +:+ String c "")); [|done]. by apply prefix_slash_app.
Qed.

Lemma ancestors_absolute (p d : string) :
  String.prefix "/" p = true → d ∈ ancestors p → String.prefix "/" d = true.
Proof.
  intros [b ->]%prefix_spec. unfold ancestors.
  change ("/" +:+ b) with (String "/" b). cbn [ancestors_from].
  change (Ascii.eqb "/" slash && negb (String.eqb "" "")) with false.
  cbn [app]. by apply ancestors_from_absolute.
Qed.

Lemma abspath_absolute (w : World) (p : string) :
  String.prefix "/" p = true → abspath w p = p.
Proof. intros H. unfold abspath. by rewrite H. Qed.

Lemma foldr_insert_Dir_keeps (ds : list string) (f : gmap string node) :
  (∀ d, d ∈ ds → f !! d = None ∨ f !! d = Some Dir) →
  ∀ k n, f !! k = Some n → foldr (λ x g, <[x := Dir]> g) f ds !! k = Some n.
Proof.
  intros Hds k n Hk. induction ds as [|x ds IH]; [done|]. cbn [foldr].
  destruct (decide (x = k)) as [->|].
  - rewrite lookup_insert_eq.
    destruct (Hds k) as [Hn|Hn]; [by left|congruence..].
  - rewrite lookup_insert_ne by done. apply IH.
    intros d Hd. apply Hds. by right.
Qed.

Lemma foldr_insert_Dir_elem (ds : list string) (f : gmap string node) (d : string) :
  d ∈ ds → foldr (λ x g, <[x := Dir]> g) f ds !! d = Some Dir.
Proof.
  induction ds as [|x ds IH]; [by intros ?%elem_of_nil|].
  intros [->|Hd]%elem_of_cons; cbn [foldr]; [by rewrite lookup_insert_eq|].
  destruct (decide (x = d)) as [->|]; [by rewrite lookup_insert_eq|].
  rewrite lookup_insert_ne by done. auto.
Qed.

(** os.makedirs of an absolute path keeps every entry there is. *)
Lemma os_makedirs_keeps (p : string) (w : World) :
  String.prefix "/" p = true →
  ∀ k n, fs w !! k = Some n → fs (snd (os_makedirs p w)) !! k = Some n.
Proof.
  intros Habs k n Hk. unfold os_makedirs. cbv zeta.
  rewrite (abspath_absolute w p Habs).
  destruct (existsb _ _) eqn:Hanc; [done|].
  destruct (exists_ w p) eqn:Hex; [done|]. cbn.
  apply foldr_insert_Dir_keeps; [|done].
  intros d [Hd| ->%list_elem_of_singleton]%elem_of_app.
  - assert (isfile w d = false) as Hfd.
    { destruct (isfile w d) eqn:Hfd; [|done].
      assert (existsb (λ d, isfile w d) (ancestors p) = true) as Hex'
        by (apply existsb_exists; exists d; split; [by apply list_elem_of_In|done]).
      congruence. }
    unfold isfile in Hfd.
    rewrite (abspath_absolute w d) in Hfd by (by eapply ancestors_absolute).
    destruct (fs w !! d) as [[|]|]; auto; done.
  - unfold exists_ in Hex. rewrite (abspath_absolute w p Habs) in Hex.
    destruct (fs w !! p); [done|]. by left.
Qed.

(** X5: for an absolute path, ensure_model_directory_exists starts no
    process, keeps the working directory and every entry of the file
    system (nothing is removed or overwritten), returns its argument or
    raises an OSError, and when it returns the path exists; when the
    path exists already, the file system is not changed at all. *)
Theorem ensure_model_directory_exists_keeps_entries (model_dir : string) (w : World) :
  String.prefix "/" model_dir = true →
  let r := ensure_model_directory_exists model_dir w in
  calls (snd r) = calls w ∧ cwd (snd r) = cwd w ∧
  (∀ k n, fs w !! k = Some n → fs (snd r) !! k = Some n) ∧
  (fst r = Ok model_dir ∨ fst r = Raise (OSError model_dir)) ∧
  (fst r = Ok model_dir → exists_ (snd r) model_dir = true) ∧
  (exists_ w model_dir = true → fst r = Ok model_dir ∧ fs (snd r) = fs w).
Proof.
  intros Habs. cbv zeta.
  unfold ensure_model_directory_exists, bind, os_path_exists, logging, ret.
  destruct (exists_ w model_dir) eqn:Hex; cbn [negb fst snd].
  - cbn. repeat split; auto.
  - pose proof (os_makedirs_keeps model_dir w Habs) as Hkeep.
    unfold os_makedirs in *. cbv zeta in *.
    rewrite (abspath_absolute w model_dir Habs) in *. rewrite Hex in *.
    destruct (existsb _ _) eqn:Hanc; cbn in *.
    + repeat split; auto; done.
    + repeat split; auto; try done.
      intros _. unfold exists_. cbn.
      rewrite (abspath_absolute _ model_dir Habs).
      rewrite foldr_insert_Dir_elem; [done|]. apply elem_of_app. right.
      by apply list_elem_of_singleton.
Qed.

Lemma ensure_model_directory_exists_keeps_entries_witness :
  let r := ensure_model_directory_exists "/output/deepstream_models/v3.2" demo_world in
  fst r = Ok "/output/deepstream_models/v3.2" ∧
  exists_ (snd r) "/output/deepstream_models/v3.2" = true ∧
  fs (snd r) !! "/output/deepstream_models" = Some Dir.
Proof.
  pose proof (ensure_model_directory_exists_keeps_entries
                "/output/deepstream_models/v3.2" demo_world eq_refl) as H.
  cbv zeta in *. destruct H as (_ & _ & _ & _ & Hex & _).
  assert (fst (ensure_model_directory_exists "/output/deepstream_models/v3.2" demo_world)
          = Ok "/output/deepstream_models/v3.2") as Hok by (vm_compute; reflexivity).
  split; [exact Hok|]. split; [exact (Hex Hok)|]. vm_compute. reflexivity.
Defined.

(** ** The pattern of get_gpu_model *)

(** With nothing after it, the greedy star takes the rest of the line. *)
Lemma star_to_end_of_line (seen rest : string) :
  Re.star (Re.match_at []) seen rest = Some (first_line rest).
Proof.
  revert seen. induction rest as [|c t IH]; intros seen; cbn [Re.star first_line]; [done|].
  destruct (Ascii.eqb c newline); [done|]. by rewrite IH.
Qed.

Lemma match_at_gpu (seen rest : string) :
  Re.match_at gpu_re seen rest =
  if ends_with ": " seen then Some (first_line rest) else None.
Proof.
  unfold gpu_re. cbn [Re.match_at]. by rewrite star_to_end_of_line.
Qed.

(** The search passes the positions the lookbehind refuses. *)
Lemma search_gpu_skip (seen a b : string) :
  (∀ a1 a2, a = a1 +:+ a2 → a2 ≠ "" → ends_with ": " (seen +:+ a1) = false) →
  Re.search_from gpu_re seen (a +:+ b) = Re.search_from gpu_re (seen +:+ a) b.
Proof.
  revert seen. induction a as [|c a IH]; intros seen H.
  - by rewrite str_app_nil_l, str_app_nil_r.
  - rewrite str_app_cons, search_from_cons, match_at_gpu.
    rewrite <-(str_app_nil_r seen) at 1.
    rewrite (H "" (String c a)) by done.
    rewrite IH; [by rewrite str_app_assoc|].
    intros a1 a2 -> Ha2. rewrite str_app_assoc.
    by apply (H (String c a1) a2).
Qed.

Lemma search_gpu_here (x rest : string) :
  Re.search_from gpu_re (x +:+ ": ") rest = Some (first_line rest).
Proof.
  assert (ends_with ": " (x +:+ ": ") = true) as He by (apply ends_with_spec; eauto).
  destruct rest; [rewrite search_from_nil|rewrite search_from_cons];
    by rewrite match_at_gpu, He.
Qed.

Lemma search_gpu_None (seen rest : string) :
  Re.search_from gpu_re seen rest = None ↔
  ∀ a1 a2, rest = a1 +:+ a2 → ends_with ": " (seen +:+ a1) = false.
Proof.
  revert seen. induction rest as [|c t IH]; intros seen.
  - rewrite search_from_nil, match_at_gpu. split.
    + intros H a1 a2 Heq. destruct a1; [|discriminate Heq].
      rewrite str_app_nil_r. by destruct (ends_with ": " seen).
    + intros H. specialize (H "" "" eq_refl). rewrite str_app_nil_r in H.
      by rewrite H.
  - rewrite search_from_cons, match_at_gpu. split.
    + destruct (ends_with ": " seen) eqn:He; [done|].
      intros H a1 a2 Heq. pose proof (proj1 (IH _) H) as H'.
      destruct a1 as [|d a1].
      * by rewrite str_app_nil_r.
      * rewrite str_app_cons in Heq. injection Heq as <- Heq.
        specialize (H' a1 a2 Heq). by rewrite str_app_assoc in H'.
    + intros H. pose proof (H "" (String c t) eq_refl) as H0.
      rewrite str_app_nil_r in H0. rewrite H0. apply (proj2 (IH _)).
      intros a1 a2 ->. rewrite str_app_assoc.
      by apply (H (String c a1) a2).
Qed.

Lemma first_line_of_line (g rest : string) :
  mem_char newline g = false →
  rest = "" ∨ (∃ r, rest = String newline r) →
  first_line (g +:+ rest) = g.
Proof.
  intros Hg Hrest. induction g as [|c g IH].
  - rewrite str_app_nil_l. destruct Hrest as [->|[r ->]]; [done|].
    cbn [first_line]. by rewrite Ascii.eqb_refl.
  - cbn [mem_char] in Hg. apply orb_false_elim in Hg as [Hc Hg].
    rewrite str_app_cons. cbn [first_line].
    rewrite Ascii.eqb_sym, Hc. by rewrite IH.
Qed.

Lemma get_gpu_model_eval (h : Host) (w : World) (out : string) :
  nvidia_smi h = Exit0 out →
  get_gpu_model h w
  = (Ok (Re.search gpu_re (strip out)),
     {| fs := fs w; cwd := cwd w; log := log w;
        calls := calls w ++ [["nvidia-smi"; "-L"]] |}).
Proof. intros H. unfold get_gpu_model, bind, record_call, ret. by rewrite H. Qed.

(** X6: when nvidia-smi exits with status 0, get_gpu_model returns the
    rest of the line after the first [": "] of the stripped listing:
    with several GPUs listed, or with a second [": "] on the line, the
    result is still everything from the first [": "] of the first such
    line to the end of that line. *)
Theorem get_gpu_model_first_line (h : Host) (w : World) (out a g rest : string) :
  nvidia_smi h = Exit0 out →
  strip out = a +:+ ": " +:+ g +:+ rest →
  contains ": " (a +:+ ":") = false →
  mem_char newline g = false →
  rest = "" ∨ (∃ r, rest = String newline r) →
  fst (get_gpu_model h w) = Ok (Some g).
Proof.
  intros Hout Hs Hfirst Hg Hrest.
  rewrite (get_gpu_model_eval h w out Hout). cbn [fst]. f_equal.
  unfold Re.search. rewrite Hs, <-str_app_assoc, search_gpu_skip.
  - rewrite str_app_nil_l, search_gpu_here. f_equal.
    by apply first_line_of_line.
  - intros a1 a2 Heq Ha2. rewrite str_app_nil_l.
    destruct (ends_with ": " a1) eqn:He; [|done].
    apply ends_with_spec in He as [x ->].
    change (a +:+ ": ") with (a +:+ ":" +:+ String " " "") in Heq.
    rewrite <-str_app_assoc in Heq.
    apply str_snoc_inv in Heq as (a' & -> & Heq); [|done].
    assert (contains ": " (a +:+ ":") = true) as Hc.
    { apply contains_spec. exists x, a'. by rewrite Heq, str_app_assoc. }
    congruence.
Qed.

Lemma get_gpu_model_first_line_witness :
  fst (get_gpu_model (demo_host a16_listing PNone) demo_world)
  = Ok (Some "NVIDIA A16-16Q (UUID: GPU-7c1f)").
Proof.
  apply (get_gpu_model_first_line (demo_host a16_listing PNone) demo_world
           "GPU 0: NVIDIA A16-16Q (UUID: GPU-7c1f)" "GPU 0"
           "NVIDIA A16-16Q (UUID: GPU-7c1f)" "").
  - reflexivity.
  - vm_compute. reflexivity.
  - vm_compute. reflexivity.
  - vm_compute. reflexivity.
  - by left.
Defined.

(** X7: when nvidia-smi exits with status 0, get_gpu_model returns None
    exactly when the stripped listing holds no [": "]; it raises a
    ScriptError when nvidia-smi exits with a non-zero status and an
    OSError when nvidia-smi cannot be started; in every case the one
    process it starts is [nvidia-smi -L] and nothing else changes. *)
Theorem get_gpu_model_none_iff (h : Host) (w : World) :
  snd (get_gpu_model h w)
  = {| fs := fs w; cwd := cwd w; log := log w;
       calls := calls w ++ [["nvidia-smi"; "-L"]] |} ∧
  (∀ out, nvidia_smi h = Exit0 out →
     ∃ g, fst (get_gpu_model h w) = Ok g ∧
          (g = None ↔ contains ": " (strip out) = false)) ∧
  (nvidia_smi h = ExitNonZero →
   ∃ msg, fst (get_gpu_model h w) = Raise (ScriptError msg)) ∧
  (nvidia_smi h = NotStarted →
   fst (get_gpu_model h w) = Raise (OSError "nvidia-smi")).
Proof.
  split; [|split; [|split]].
  - unfold get_gpu_model, bind, record_call, ret, raise.
    by destruct (nvidia_smi h).
  - intros out Hout. rewrite (get_gpu_model_eval h w out Hout).
    eexists. split; [reflexivity|]. unfold Re.search.
    rewrite search_gpu_None. split.
    + intros H. destruct (contains ": " (strip out)) eqn:Hc; [|done].
      apply contains_spec in Hc as (a & b & Hab).
      specialize (H (a +:+ ": ") b). rewrite str_app_nil_l in H.
      rewrite <-H; [|by rewrite Hab, str_app_assoc].
      symmetry. apply ends_with_spec. eauto.
    + intros Hc a1 a2 Heq. rewrite str_app_nil_l.
      destruct (ends_with ": " a1) eqn:He; [|done].
      apply ends_with_spec in He as [x ->].
      assert (contains ": " (strip out) = true) as Hc'.
      { apply contains_spec. exists x, a2. by rewrite Heq, str_app_assoc. }
      congruence.
  - intros H. unfold get_gpu_model, bind, record_call, raise. rewrite H. cbn. eauto.
  - intros H. unfold get_gpu_model, bind, record_call, raise. by rewrite H.
Qed.

(** ** Which paths a step can touch *)

Lemma confined_same (w0 : World) (keys : list string) {A} (m : M A) :
  (∀ w, cwd (snd (m w)) = cwd w ∧ fs (snd (m w)) = fs w) → confined w0 keys m.
Proof. intros H w Hc. destruct (H w) as [-> ->]. auto. Qed.

Lemma confined_mono (w0 : World) (keys keys' : list string) {A} (m : M A) :
  keys ⊆ keys' → confined w0 keys m → confined w0 keys' m.
Proof.
  intros Hsub Hm w Hc. destruct (Hm w Hc) as [Hcwd Hfs]. split; [done|].
  intros d Hd. apply Hfs. intros Hin. by apply Hd, Hsub.
Qed.

Lemma confined_bind (w0 : World) (keys : list string) {A B} (m : M A) (k : A → M B) :
  confined w0 keys m → (∀ a, confined w0 keys (k a)) → confined w0 keys (bind m k).
Proof.
  intros Hm Hk w Hc. unfold bind. destruct (Hm w Hc) as [Hcwd Hfs].
  destruct (m w) as [[a|e] w'] eqn:Hmw; cbn in Hcwd, Hfs; [|done].
  destruct (Hk a w' Hcwd) as [Hcwd' Hfs']. split; [done|].
  intros d Hd. by rewrite Hfs', Hfs.
Qed.

Lemma confined_try_except (w0 : World) (keys : list string) {A} (m : M A)
    (k : exn → M A) :
  confined w0 keys m → (∀ e, confined w0 keys (k e)) →
  confined w0 keys (try_except m k).
Proof.
  intros Hm Hk w Hc. unfold try_except. destruct (Hm w Hc) as [Hcwd Hfs].
  destruct (m w) as [[a|e] w'] eqn:Hmw; cbn in Hcwd, Hfs; [done|].
  destruct (Hk e w' Hcwd) as [Hcwd' Hfs']. split; [done|].
  intros d Hd. by rewrite Hfs', Hfs.
Qed.

Lemma confined_ret (w0 : World) (keys : list string) {A} (a : A) :
  confined w0 keys (ret a).
Proof. by apply confined_same. Qed.

Lemma confined_raise (w0 : World) (keys : list string) {A} (e : exn) :
  confined w0 keys (@raise A e).
Proof. by apply confined_same. Qed.

Lemma confined_lift (w0 : World) (keys : list string) {A} (r : result A) :
  confined w0 keys (lift r).
Proof. by apply confined_same. Qed.

Lemma confined_logging (w0 : World) (keys : list string) (l : level) (msg : string) :
  confined w0 keys (logging l msg).
Proof. by apply confined_same. Qed.

Lemma confined_os_path_exists (w0 : World) (keys : list string) (p : string) :
  confined w0 keys (os_path_exists p).
Proof. by apply confined_same. Qed.

Lemma confined_verify_md5 (w0 : World) (keys : list string) (p : string) (e : pyval) :
  confined w0 keys (verify_md5 p e).
Proof.
  apply confined_same. intros w. unfold verify_md5, bind, read_file, raise, logging.
  destruct (fs w !! abspath w p) as [[c|]|]; cbn; try done.
  by destruct (negb _).
Qed.

Lemma confined_get_jfrog_checksum (w0 : World) (keys : list string) (h : Host)
    (url : string) (u p : pyval) :
  confined w0 keys (get_jfrog_checksum h url u p).
Proof.
  apply confined_same. intros w.
  destruct (get_jfrog_checksum_cases h url u p w) as [-> _]. done.
Qed.

Lemma confined_run_curl_command (w0 : World) (h : Host) (url : string) (u p : pyval)
    (lp : string) :
  confined w0 [abspath w0 (basename url); abspath w0 lp] (run_curl_command h url u p lp).
Proof.
  intros w Hc. rewrite run_curl_command_cwd. split; [done|].
  intros d Hd. apply run_curl_command_frame.
  - rewrite (abspath_cwd w0 w) by done. set_solver.
  - rewrite (abspath_cwd w0 w) by done. set_solver.
Qed.

Lemma confined_os_rename (w0 : World) (src dst : string) :
  confined w0 [abspath w0 src; abspath w0 dst] (os_rename src dst).
Proof.
  intros w Hc. unfold os_rename.
  rewrite !(abspath_cwd w0 w) by done.
  destruct (fs w !! abspath w0 src) as [[c|]|]; [|done..].
  destruct (_ || _); [done|]. cbn. split; [done|].
  intros d Hd. rewrite lookup_insert_ne, lookup_delete_ne; [done|set_solver..].
Qed.

(** ** The label step *)

Lemma label_step_present (h : Host) (label_file v : string) (u p : pyval) (w : World) :
  isfile w label_file = true →
  download_and_check_label_file h label_file v u p w
  = logging INFO "Label file already exists. Skipping download." w.
Proof.
  intros Hf. unfold download_and_check_label_file, bind, os_path_isfile. by rewrite Hf.
Qed.

Lemma label_step_absent (h : Host) (label_file v : string) (u p : pyval) (w : World) :
  isfile w label_file = false →
  download_and_check_label_file h label_file v u p w
  = run_curl_command h (artifact_url v "labels.txt") u p label_file
      (snd (logging INFO "Label file not found. Downloading label file." w)).
Proof.
  intros Hf. unfold download_and_check_label_file, bind, os_path_isfile. by rewrite Hf.
Qed.

Lemma confined_label_step (w0 : World) (h : Host) (label_file v : string) (u p : pyval) :
  confined w0 [abspath w0 "labels.txt"; abspath w0 label_file]
    (download_and_check_label_file h label_file v u p).
Proof.
  intros w Hc. destruct (isfile w label_file) eqn:Hf.
  - rewrite label_step_present by done. cbn. auto.
  - rewrite label_step_absent by done.
    pose proof (confined_run_curl_command w0 h (artifact_url v "labels.txt") u p
                  label_file) as Hr.
    rewrite artifact_url_basename in Hr by done.
    exact (Hr (snd (logging INFO "Label file not found. Downloading label file." w)) Hc).
Qed.

Lemma label_step_Ok (h : Host) (label_file v : string) (u p : pyval) (w w' : World) :
  download_and_check_label_file h label_file v u p w = (Ok tt, w') →
  isfile w' label_file = true.
Proof.
  destruct (isfile w label_file) eqn:Hf.
  - rewrite label_step_present by done. intros [= <-]. by cbn.
  - rewrite label_step_absent by done.
    intros (body & _ & Hfile & Hcwd & _)%run_curl_command_inv_Ok.
    unfold isfile. rewrite (abspath_cwd _ _ _ Hcwd). by rewrite Hfile.
Qed.

(** X8: the label step keeps the working directory and can change only
    two paths, [labels.txt] in the working directory (the download name)
    and the label file; when it returns, the label file is a regular
    file; and the only exception it raises is the ScriptError of a
    failed download. *)
Theorem label_step_contract (h : Host) (label_file v : string) (u p : pyval) (w : World) :
  let r := download_and_check_label_file h label_file v u p w in
  cwd (snd r) = cwd w ∧
  (∀ d, d ≠ abspath w "labels.txt" → d ≠ abspath w label_file →
        fs (snd r) !! d = fs w !! d) ∧
  (fst r = Ok tt → isfile (snd r) label_file = true) ∧
  (∀ e, fst r = Raise e →
        ∃ cause, e = ScriptError ("Error downloading file: " +:+ exn_str cause)).
Proof.
  cbv zeta.
  destruct (confined_label_step w h label_file v u p w eq_refl) as [Hcwd Hfs].
  split; [done|]. split; [|split].
  - intros d H1 H2. apply Hfs. rewrite !elem_of_cons, elem_of_nil. tauto.
  - destruct (download_and_check_label_file h label_file v u p w) as [r w'] eqn:Hr.
    cbn. intros ->. by eapply label_step_Ok.
  - intros e. destruct (isfile w label_file) eqn:Hf.
    + by rewrite label_step_present.
    + rewrite label_step_absent by done. intros He.
      destruct (run_curl_command_cases h (artifact_url v "labels.txt") u p label_file
                  (snd (logging INFO "Label file not found. Downloading label file." w)))
        as [(body & _ & Hr)|(cause & w' & Hr & _)]; rewrite Hr in He; [done|].
      injection He as <-. eauto.
Qed.

(** ** The model step *)

Lemma verify_md5_inv_Ok (path : string) (expected : pyval) (w w' : World) :
  verify_md5 path expected w = (Ok tt, w') →
  ∃ content, fs w !! abspath w path = Some (File content) ∧
             expected = PStr (MD5.hex (MD5.digest content)) ∧
             fs w' = fs w ∧ cwd w' = cwd w.
Proof.
  destruct (fs w !! abspath w path) as [[content|]|] eqn:Hf.
  - rewrite (verify_md5_eval w path content) by done.
    destruct (str_eq _ expected) eqn:He; [|done].
    intros [= <-]. apply str_eq_true in He. by exists content.
  - unfold verify_md5, bind, read_file. by rewrite Hf.
  - unfold verify_md5, bind, read_file. by rewrite Hf.
Qed.

Lemma os_rename_inv_Ok (src dst : string) (w w' : World) :
  os_rename src dst w = (Ok tt, w') →
  ∃ c, fs w !! abspath w src = Some (File c) ∧
       w' = set_fs (<[abspath w dst := File c]> (delete (abspath w src) (fs w))) w.
Proof.
  unfold os_rename. destruct (fs w !! abspath w src) as [[c|]|]; [|done..].
  destruct (_ || _); [done|]. intros [= <-]. by exists c.
Qed.

Lemma get_jfrog_checksum_inv_Ok (h : Host) (url : string) (u p v : pyval) (w w' : World) :
  get_jfrog_checksum h url u p w = (Ok v, w') →
  fs w' = fs w ∧ cwd w' = cwd w ∧
  ∃ out js cs,
    curl_stdout h url (userpass h u p) = Exit0 out ∧
    json_loads h out = Some js ∧ subscript js "checksums" = Ok cs ∧
    subscript cs "md5" = Ok v.
Proof.
  intros Hr. destruct (get_jfrog_checksum_cases h url u p w) as [Hw Hc].
  rewrite Hr in Hw, Hc. cbn in Hw, Hc. subst w'. repeat split.
  destruct Hc as [(out & js & cs & v' & ? & ? & ? & ? & [= <-])|[e ?]]; [|done].
  by exists out, js, cs.
Qed.

Lemma select_variant_names (v : string) (gpu : option string) (url lp : string) :
  select_variant v gpu = Ok (url, lp) →
  mem_char slash lp = false ∧ basename lp = lp ∧ basename url = lp.
Proof.
  intros [Hlp ->]%select_variant_Ok.
  assert (mem_char slash lp = false) as Hns by (by destruct Hlp as [-> | ->]).
  repeat split; [done| |by apply artifact_url_basename].
  by destruct Hlp as [-> | ->].
Qed.

(** What a returning model step has done when the model file was not
    there. *)
Lemma model_step_inv_Ok (h : Host) (model_file v : string) (gpu : option string)
    (u p : pyval) (w w' : World) :
  isfile w model_file = false →
  download_and_check_model_file h model_file v gpu u p w = (Ok tt, w') →
  ∃ url lp body out js cs,
    select_variant v gpu = Ok (url, lp) ∧
    curl_download h url (userpass h u p) = Exit0 body ∧
    curl_stdout h (STORAGE_API +:+ v +:+ "/" +:+ lp) (userpass h u p) = Exit0 out ∧
    json_loads h out = Some js ∧
    subscript js "checksums" = Ok cs ∧
    subscript cs "md5" = Ok (PStr (MD5.hex (MD5.digest body))) ∧
    fs w' !! abspath w model_file = Some (File body) ∧
    cwd w' = cwd w.
Proof.
  intros Hf. rewrite model_step_absent by done.
  intros (variant & wa & Hsel & H)%bind_inv_Ok.
  destruct variant as [url lp].
  unfold lift in Hsel. injection Hsel as Hsel <-.
  destruct (select_variant_names _ _ _ _ Hsel) as (Hns & Hbl & Hbu).
  apply bind_inv_Ok in H as ([] & wb & Hdl & H).
  apply run_curl_command_inv_Ok in Hdl as (body & Hget & Hfile & Hcwdb & _).
  cbv zeta in H. rewrite Hbl in H.
  apply bind_inv_Ok in H as (reported & wc & Hck & H).
  apply get_jfrog_checksum_inv_Ok in Hck as (Hfsc & Hcwdc & out & js & cs & ? & ? & ? & ?).
  apply bind_inv_Ok in H as ([] & wd & Hver & H).
  apply verify_md5_inv_Ok in Hver as (content & Hread & -> & Hfsd & Hcwdd).
  apply bind_inv_Ok in H as ([] & we & Hren & H).
  apply os_rename_inv_Ok in Hren as (c & Hsrc & ->).
  apply bind_inv_Ok in H as (present & wf & Hex & H).
  unfold os_path_exists in Hex. injection Hex as <- <-.
  destruct (exists_ _ model_file); [|done].
  injection H as <-.
  change (fs wb !! abspath w lp = Some (File body)) in Hfile.
  change (cwd wb = cwd w) in Hcwdb.
  assert (cwd wc = cwd w) as Hcwdc' by congruence.
  assert (cwd wd = cwd w) as Hcwd by congruence.
  rewrite (abspath_cwd w wc) in Hread by done. rewrite Hfsc in Hread.
  rewrite (abspath_cwd w wd) in Hsrc by done. rewrite Hfsd, Hfsc in Hsrc.
  assert (content = body) as -> by congruence.
  assert (c = body) as -> by congruence.
  exists url, lp, body, out, js, cs. repeat split; try done.
  cbn. rewrite (abspath_cwd w wd) by done. apply lookup_insert_eq.
Qed.

Lemma model_step_Ok (h : Host) (model_file v : string) (gpu : option string)
    (u p : pyval) (w w' : World) :
  download_and_check_model_file h model_file v gpu u p w = (Ok tt, w') →
  isfile w' model_file = true.
Proof.
  destruct (isfile w model_file) eqn:Hf.
  - rewrite model_step_present by done. intros [= <-]. by cbn.
  - intros H. apply model_step_inv_Ok in H as (? & ? & body & ? & ? & ? & _ & _ & _ & _ & _ & _ & Hfile & Hcwd); [|done].
    unfold isfile. rewrite (abspath_cwd _ _ _ Hcwd). by rewrite Hfile.
Qed.


Lemma confined_model_step (w0 : World) (h : Host) (model_file v : string)
    (gpu : option string) (u p : pyval) :
  confined w0 [abspath w0 A2_ENGINE; abspath w0 A16_ENGINE; abspath w0 model_file]
    (download_and_check_model_file h model_file v gpu u p).
Proof.
  intros w Hc. destruct (isfile w model_file) eqn:Hf.
  - rewrite model_step_present by done. cbn. auto.
  - rewrite model_step_absent by done.
    set (w1 := snd (logging INFO _ w)).
    assert (cwd w1 = cwd w0) as Hc1 by done.
    change (fs w) with (fs w1).
    destruct (select_variant v gpu) as [[url lp]|e] eqn:Hsel; [|by cbn].
    destruct (select_variant_Ok _ _ _ _ Hsel) as [Hlp _].
    destruct (select_variant_names _ _ _ _ Hsel) as (_ & _ & Hbu).
    unfold bind at 1. unfold lift at 1.
    match goal with |- context [snd (?m w1)] =>
      assert (confined w0 [abspath w0 A2_ENGINE; abspath w0 A16_ENGINE;
                           abspath w0 model_file] m) as Hm; [|exact (Hm w1 Hc1)] end.
    apply confined_bind; [|intros []].
    { eapply confined_mono; [|apply confined_run_curl_command].
      rewrite Hbu. intros d. rewrite !elem_of_cons, !elem_of_nil.
      destruct Hlp as [-> | ->]; tauto. }
    cbv zeta. apply confined_bind; [apply confined_get_jfrog_checksum|intros reported].
    apply confined_bind; [apply confined_verify_md5|intros []].
    apply confined_bind; [|intros []].
    { eapply confined_mono; [|apply confined_os_rename].
      intros d. rewrite !elem_of_cons, !elem_of_nil.
      destruct Hlp as [-> | ->]; tauto. }
    apply confined_bind; [apply confined_os_path_exists|intros present].
    destruct present; [apply confined_logging|apply confined_raise].
Qed.

(** X9: when the model file is not there and the model step returns, the
    file now at the model path is the body curl downloaded from the
    selected artifact URL, and its MD5 is the checksum the storage API
    reported for the artifact of the same name: no file is staged under
    the final name without a matching checksum. *)
Theorem model_step_stages_verified_file (h : Host) (model_file v : string)
    (gpu : option string) (u p : pyval) (w w' : World) :
  isfile w model_file = false →
  download_and_check_model_file h model_file v gpu u p w = (Ok tt, w') →
  ∃ url lp body out js cs,
    select_variant v gpu = Ok (url, lp) ∧
    url = artifact_url v lp ∧
    curl_download h url (userpass h u p) = Exit0 body ∧
    curl_stdout h (STORAGE_API +:+ v +:+ "/" +:+ lp) (userpass h u p) = Exit0 out ∧
    json_loads h out = Some js ∧
    subscript js "checksums" = Ok cs ∧
    subscript cs "md5" = Ok (PStr (MD5.hex (MD5.digest body))) ∧
    fs w' !! abspath w model_file = Some (File body).
Proof.
  intros Hf Hr.
  destruct (model_step_inv_Ok _ _ _ _ _ _ _ _ Hf Hr)
    as (url & lp & body & out & js & cs & Hsel & ? & ? & ? & ? & ? & ? & _).
  exists url, lp, body, out, js, cs. repeat split; try done.
  by destruct (select_variant_Ok _ _ _ _ Hsel).
Qed.

Lemma model_step_stages_verified_file_witness :
  ∃ url lp body out js cs,
    select_variant "v3.2" (Some "NVIDIA A16-16Q") = Ok (url, lp) ∧
    url = artifact_url "v3.2" lp ∧
    curl_download (demo_host a16_listing (PStr demo_engine_md5)) url
      (userpass (demo_host a16_listing (PStr demo_engine_md5)) (PStr "u") (PStr "p"))
    = Exit0 body ∧
    curl_stdout (demo_host a16_listing (PStr demo_engine_md5))
      (STORAGE_API +:+ "v3.2" +:+ "/" +:+ lp)
      (userpass (demo_host a16_listing (PStr demo_engine_md5)) (PStr "u") (PStr "p"))
    = Exit0 out ∧
    json_loads (demo_host a16_listing (PStr demo_engine_md5)) out = Some js ∧
    subscript js "checksums" = Ok cs ∧
    subscript cs "md5" = Ok (PStr (MD5.hex (MD5.digest body))) ∧
    fs (snd (download_and_check_model_file (demo_host a16_listing (PStr demo_engine_md5))
               (model_file_of "v3.2") "v3.2" (Some "NVIDIA A16-16Q")
               (PStr "u") (PStr "p") ready_world))
    !! abspath ready_world (model_file_of "v3.2") = Some (File body).
Proof.
  apply (model_step_stages_verified_file (demo_host a16_listing (PStr demo_engine_md5))
           (model_file_of "v3.2") "v3.2" (Some "NVIDIA A16-16Q") (PStr "u") (PStr "p")
           ready_world).
  - vm_compute. reflexivity.
  - vm_compute. reflexivity.
Defined.

(** X10: the model step keeps the working directory and can change only
    three paths: the two download names, [A2_model.onnx_b1_gpu0_fp16.engine]
    and [A16_model.onnx_b1_gpu0_fp16.engine] in the working directory, and
    the model file; whenever it returns, the model file is a regular
    file.  In particular it never touches the label file. *)
Theorem model_step_contract (h : Host) (model_file v : string) (gpu : option string)
    (u p : pyval) (w : World) :
  let r := download_and_check_model_file h model_file v gpu u p w in
  cwd (snd r) = cwd w ∧
  (∀ d, d ≠ abspath w A2_ENGINE → d ≠ abspath w A16_ENGINE → d ≠ abspath w model_file →
        fs (snd r) !! d = fs w !! d) ∧
  (fst r = Ok tt → isfile (snd r) model_file = true).
Proof.
  cbv zeta.
  destruct (confined_model_step w h model_file v gpu u p w eq_refl) as [Hcwd Hfs].
  split; [done|]. split.
  - intros d H1 H2 H3. apply Hfs. rewrite !elem_of_cons, elem_of_nil. tauto.
  - destruct (download_and_check_model_file h model_file v gpu u p w) as [r w'] eqn:Hr.
    cbn. intros ->. by eapply model_step_Ok.
Qed.

(** ** main, from the outside *)

Ltac str_neq_at n :=
  let H := fresh "H" in
  intros H; apply (f_equal (String.get n)) in H; vm_compute in H; discriminate H.

Lemma ensure_model_directory_exists_inv_Ok (model_dir d' : string) (w w' : World) :
  String.prefix "/" model_dir = true →
  ensure_model_directory_exists model_dir w = (Ok d', w') →
  cwd w' = cwd w ∧ calls w' = calls w ∧
  (∀ k n, fs w !! k = Some n → fs w' !! k = Some n) ∧
  exists_ w' model_dir = true.
Proof.
  intros Habs. unfold ensure_model_directory_exists.
  intros (present & wa & Hex & H)%bind_inv_Ok.
  unfold os_path_exists in Hex. injection Hex as <- <-.
  apply bind_inv_Ok in H as ([] & wb & H & Hret). injection Hret as _ <-.
  destruct (exists_ w model_dir) eqn:Hex; cbn [negb] in H.
  - injection H as <-. by cbn.
  - apply bind_inv_Ok in H as ([] & wc & Hmk & H). injection H as <-.
    pose proof (os_makedirs_keeps model_dir w Habs) as Hkeep. rewrite Hmk in Hkeep.
    unfold os_makedirs in Hmk. cbv zeta in Hmk.
    rewrite (abspath_absolute w model_dir Habs) in Hmk. rewrite Hex in Hmk.
    destruct (existsb _ _); [done|]. cbn in Hmk. injection Hmk as <-.
    cbn. repeat split; try done.
    unfold exists_. cbn. rewrite (abspath_absolute _ model_dir Habs).
    rewrite foldr_insert_Dir_elem; [done|]. apply elem_of_app. right.
    by apply list_elem_of_singleton.
Qed.

Lemma get_gpu_model_inv_Ok (h : Host) (gpu : option string) (w w' : World) :
  get_gpu_model h w = (Ok gpu, w') →
  ∃ out, nvidia_smi h = Exit0 out ∧ gpu = Re.search gpu_re (strip out) ∧
         fs w' = fs w ∧ cwd w' = cwd w ∧
         calls w' = calls w ++ [["nvidia-smi"; "-L"]].
Proof.
  unfold get_gpu_model, bind, record_call, ret, raise.
  destruct (nvidia_smi h) as [out| |]; [|done..].
  intros [= <- <-]. by exists out.
Qed.

(** What main has established when it reaches the model step. *)
Lemma main_setup_inv_Ok (h : Host) (w wh : World) (v : string) (u p : pyval)
    (gpu : option string) :
  main_setup h w = (Ok (v, u, p, gpu), wh) →
  ∃ text cfg prop s dcj env out,
    fs w !! "/config/config-infer-primary-bot.yaml" = Some (File text) ∧
    yaml_full_load h text = Some (PDict cfg) ∧
    cfg !! "property" = Some (PDict prop) ∧
    prop !! "model-engine-file" = Some (PStr s) ∧
    extract_model_version s = Ok v ∧
    getenv h "dockerconfigjson" = Some dcj ∧ getenv h "JFROG_ENV" = Some env ∧
    String.eqb dcj "" || String.eqb env "" = false ∧
    get_auth_credentials h dcj env = Ok (u, p) ∧
    nvidia_smi h = Exit0 out ∧ gpu = Re.search gpu_re (strip out) ∧
    cwd wh = "/output" ∧
    fs wh !! "/output" = Some Dir ∧
    fs wh !! "/config/config-infer-primary-bot.yaml" = Some (File text) ∧
    exists_ wh ("/output/deepstream_models/" +:+ v) = true ∧
    isfile wh ("/output/deepstream_models/" +:+ v +:+ "/labels.txt") = true.
Proof.
  intros Hsetup. destruct (main_setup_post _ _ _ _ _ _ _ Hsetup) as [Hcwdh Houth].
  unfold main_setup in Hsetup.
  apply bind_inv_Ok in Hsetup as (cfgv & wa & Hread & H).
  pose proof (read_yaml_config_world h "/config/config-infer-primary-bot.yaml" w) as Hwa.
  rewrite Hread in Hwa. cbn in Hwa. subst wa.
  assert (fst (read_yaml_config h "/config/config-infer-primary-bot.yaml" w) = Ok cfgv)
    as Hcfg by (by rewrite Hread).
  apply read_yaml_config_Ok in Hcfg as (text & cfg & prop & Hfile & Hyaml & Hprop & Hkey).
  change (abspath w "/config/config-infer-primary-bot.yaml")
    with "/config/config-infer-primary-bot.yaml" in Hfile.
  apply bind_inv_Ok in H as (v' & wb & Hver & H).
  unfold lift in Hver. injection Hver as Hver <-.
  destruct cfgv as [| | | |s| |]; try done.
  apply bind_inv_Ok in H as ([] & wc & Hlog & H). injection Hlog as <-.
  destruct (getenv h "dockerconfigjson") as [dcj|] eqn:Hdcj; [|done].
  destruct (getenv h "JFROG_ENV") as [env|] eqn:Henv; [|done].
  destruct (String.eqb dcj "" || String.eqb env "") eqn:Hne; [done|].
  apply bind_inv_Ok in H as ([u' p'] & wd & Hcred & H).
  unfold lift in Hcred. injection Hcred as Hcred <-.
  apply bind_inv_Ok in H as ([] & we & Hcd & H).
  unfold os_chdir in Hcd.
  destruct (isdir _ "/output") eqn:Hdir; [|done]. injection Hcd as <-.
  apply bind_inv_Ok in H as (d' & wf & Hens & H).
  apply ensure_model_directory_exists_inv_Ok in Hens
    as (Hcwdf & _ & Hkeep & Hexf); [|done].
  apply bind_inv_Ok in H as ([] & wg & Hlab & H).
  pose proof (confined_label_step wf h
                ("/output/deepstream_models/" +:+ v' +:+ "/labels.txt") v' u' p'
                wf eq_refl) as [Hcwdg Hfsg].
  rewrite Hlab in Hcwdg, Hfsg. cbn [snd] in Hcwdg, Hfsg.
  pose proof (label_step_Ok _ _ _ _ _ _ _ Hlab) as Hlabel.
  apply bind_inv_Ok in H as (gpu' & wh' & Hgpu & H).
  unfold ret in H. injection H as -> -> -> -> ->.
  apply get_gpu_model_inv_Ok in Hgpu as (out & Hsmi & Hgpu & Hfsh & Hcwdh' & _).
  cbn [cwd] in Hcwdf.
  assert (abspath wf "labels.txt" = "/output/labels.txt") as Hk1.
  { unfold abspath. cbn [String.prefix]. by rewrite Hcwdf. }
  assert (abspath wf ("/output/deepstream_models/" +:+ v +:+ "/labels.txt")
          = "/output/deepstream_models/" +:+ v +:+ "/labels.txt") as Hk2 by done.
  rewrite Hk1, Hk2 in Hfsg.
  exists text, cfg, prop, s, dcj, env, out.
  repeat split; try done.
  - rewrite Hfsh, Hfsg.
    + by apply Hkeep.
    + rewrite !elem_of_cons, elem_of_nil. intros [H|[H|[]]]; revert H; str_neq_at 1%nat.
  - unfold exists_ in *. rewrite (abspath_cwd wf wh) by congruence.
    rewrite Hfsh, Hfsg; [done|].
    change (abspath wf ("/output/deepstream_models/" +:+ v))
      with ("/output/deepstream_models/" +:+ v).
    rewrite !elem_of_cons, elem_of_nil. intros [H|[H|[]]]; revert H.
    + str_neq_at 8%nat.
    + intros H. symmetry in H. rewrite <-str_app_assoc in H.
      by apply str_app_neq in H.
  - unfold isfile in *. rewrite (abspath_cwd wg wh) by congruence. by rewrite Hfsh.
Qed.




Lemma main_inv_0 (h : Host) (w w1 : World) :
  main h w = (0, w1) → main_body h w = (Ok tt, w1).
Proof.
  unfold main. destruct (main_body h w) as [[[]|e] w'].
  - by intros [= <-].
  - by destruct e.
Qed.

(** What a run of main that exits with status 0 has established. *)
Lemma main_success_inv (h : Host) (w w1 : World) :
  main h w = (0, w1) →
  ∃ text cfg prop s v dcj env u p out,
    fs w !! "/config/config-infer-primary-bot.yaml" = Some (File text) ∧
    yaml_full_load h text = Some (PDict cfg) ∧
    cfg !! "property" = Some (PDict prop) ∧
    prop !! "model-engine-file" = Some (PStr s) ∧
    extract_model_version s = Ok v ∧
    getenv h "dockerconfigjson" = Some dcj ∧ getenv h "JFROG_ENV" = Some env ∧
    String.eqb dcj "" || String.eqb env "" = false ∧
    get_auth_credentials h dcj env = Ok (u, p) ∧
    nvidia_smi h = Exit0 out ∧
    cwd w1 = "/output" ∧
    fs w1 !! "/output" = Some Dir ∧
    fs w1 !! "/config/config-infer-primary-bot.yaml" = Some (File text) ∧
    exists_ w1 ("/output/deepstream_models/" +:+ v) = true ∧
    isfile w1 ("/output/deepstream_models/" +:+ v +:+ "/labels.txt") = true ∧
    isfile w1 (model_file_of v) = true.
Proof.
  intros Hmain%main_inv_0. rewrite main_body_split in Hmain.
  apply bind_inv_Ok in Hmain as ([[[v u] p] gpu] & wh & Hsetup & Hstep).
  apply main_setup_inv_Ok in Hsetup
    as (text & cfg & prop & s & dcj & env & out & ? & ? & ? & ? & ? & ? & ? & ? & ? & ?
        & _ & Hcwd & Hout & Hcfg & Hdir & Hlabel).
  pose proof (confined_model_step wh h (model_file_of v) v gpu u p wh eq_refl)
    as [Hcwd1 Hfs1].
  pose proof (model_step_Ok _ _ _ _ _ _ _ _ Hstep) as Hmodel.
  rewrite Hstep in Hcwd1, Hfs1. cbn [snd] in Hcwd1, Hfs1.
  assert (abspath wh A2_ENGINE = "/output/" +:+ A2_ENGINE) as Hk1.
  { unfold abspath. cbn [String.prefix A2_ENGINE]. by rewrite Hcwd. }
  assert (abspath wh A16_ENGINE = "/output/" +:+ A16_ENGINE) as Hk2.
  { unfold abspath. cbn [String.prefix A16_ENGINE]. by rewrite Hcwd. }
  rewrite Hk1, Hk2, model_file_absolute in Hfs1.
  exists text, cfg, prop, s, v, dcj, env, u, p, out.
  repeat split; try done; try congruence.
  - rewrite Hfs1; [done|]. rewrite !elem_of_cons, elem_of_nil.
    intros [Hk|[Hk|[Hk|[]]]]; revert Hk; str_neq_at 7%nat.
  - rewrite Hfs1; [done|]. rewrite !elem_of_cons, elem_of_nil.
    intros [Hk|[Hk|[Hk|[]]]]; revert Hk; str_neq_at 1%nat.
  - unfold exists_ in *. rewrite (abspath_cwd wh w1) by congruence.
    rewrite Hfs1; [done|].
    change (abspath wh ("/output/deepstream_models/" +:+ v))
      with ("/output/deepstream_models/" +:+ v).
    rewrite !elem_of_cons, elem_of_nil.
    intros [Hk|[Hk|[Hk|[]]]]; revert Hk; [str_neq_at 8%nat..|].
    intros Hk. symmetry in Hk. unfold model_file_of in Hk. by apply str_app_neq in Hk.
  - unfold isfile in *. rewrite (abspath_cwd wh w1) by congruence.
    rewrite Hfs1; [done|].
    change (abspath wh ("/output/deepstream_models/" +:+ v +:+ "/labels.txt"))
      with ("/output/deepstream_models/" +:+ v +:+ "/labels.txt").
    rewrite !elem_of_cons, elem_of_nil.
    intros [Hk|[Hk|[Hk|[]]]]; revert Hk; [str_neq_at 8%nat..|].
    unfold model_file_of. rewrite str_app_assoc.
    intros Hk. do 2 apply String.app_inj in Hk. discriminate Hk.
Qed.

(** X12: an exit status 0 means the files are staged: the configured
    path yields a version, and both [labels.txt] and the engine file
    [model.onnx_b1_gpu0_fp16.engine] are regular files in
    [/output/deepstream_models/<version>], which exists; the working
    directory is [/output]. *)
Theorem main_exit_0_staged (h : Host) (w w1 : World) :
  main h w = (0, w1) →
  ∃ s v,
    fst (read_yaml_config h "/config/config-infer-primary-bot.yaml" w) = Ok (PStr s) ∧
    extract_model_version s = Ok v ∧
    exists_ w1 ("/output/deepstream_models/" +:+ v) = true ∧
    isfile w1 ("/output/deepstream_models/" +:+ v +:+ "/labels.txt") = true ∧
    isfile w1 ("/output/deepstream_models/" +:+ v +:+ "/model.onnx_b1_gpu0_fp16.engine")
    = true ∧
    cwd w1 = "/output".
Proof.
  intros (text & cfg & prop & s & v & dcj & env & u & p & out & Hfile & Hyaml & Hprop
          & Hkey & Hver & _ & _ & _ & _ & _ & Hcwd & _ & _ & Hdir & Hlabel & Hmodel)
         %main_success_inv.
  exists s, v. repeat split; try done.
  apply read_yaml_config_Ok. by exists text, cfg, prop.
Qed.

Lemma main_exit_0_staged_witness :
  ∃ s v,
    fst (read_yaml_config (demo_host a16_listing (PStr demo_engine_md5))
           "/config/config-infer-primary-bot.yaml" demo_world) = Ok (PStr s) ∧
    extract_model_version s = Ok v ∧
    exists_ (snd (main (demo_host a16_listing (PStr demo_engine_md5)) demo_world))
      ("/output/deepstream_models/" +:+ v) = true ∧
    isfile (snd (main (demo_host a16_listing (PStr demo_engine_md5)) demo_world))
      ("/output/deepstream_models/" +:+ v +:+ "/labels.txt") = true ∧
    isfile (snd (main (demo_host a16_listing (PStr demo_engine_md5)) demo_world))
      ("/output/deepstream_models/" +:+ v +:+ "/model.onnx_b1_gpu0_fp16.engine")
    = true ∧
    cwd (snd (main (demo_host a16_listing (PStr demo_engine_md5)) demo_world)) = "/output".
Proof.
  apply (main_exit_0_staged (demo_host a16_listing (PStr demo_engine_md5)) demo_world).
  vm_compute. reflexivity.
Defined.

Lemma read_yaml_config_eval (h : Host) (file_path : string) (w : World)
    (text : list byte) (cfg prop : gmap string pyval) (v : pyval) :
  fs w !! abspath w file_path = Some (File text) →
  yaml_full_load h text = Some (PDict cfg) →
  cfg !! "property" = Some (PDict prop) →
  prop !! "model-engine-file" = Some v →
  read_yaml_config h file_path w = (Ok v, w).
Proof.
  intros Hf Hy Hp Hk.
  rewrite (surjective_pairing (read_yaml_config h file_path w)).
  rewrite read_yaml_config_world. f_equal.
  apply read_yaml_config_Ok. by exists text, cfg, prop.
Qed.

(** X13: main is idempotent.  After a run that exited with status 0, a
    second run exits with status 0 as well, starts a single process, the
    GPU probe [nvidia-smi -L] (no curl at all: nothing is downloaded and
    no checksum is queried), and leaves every file and the working
    directory as they are. *)
Theorem main_rerun_skips_downloads (h : Host) (w w1 : World) :
  main h w = (0, w1) →
  ∃ w2, main h w1 = (0, w2) ∧
        fs w2 = fs w1 ∧ cwd w2 = cwd w1 ∧
        calls w2 = calls w1 ++ [["nvidia-smi"; "-L"]].
Proof.
  intros (text & cfg & prop & s & v & dcj & env & u & p & out & _ & Hyaml & Hprop
          & Hkey & Hver & Hdcj & Henv & Hne & Hcred & Hsmi & Hcwd & Hout & Hcfg
          & Hdir & Hlabel & Hmodel)%main_success_inv.
  unfold main, main_body.
  erewrite bind_Ok; [|by eapply read_yaml_config_eval]. cbv beta.
  erewrite bind_Ok; [|unfold lift; by rewrite Hver]. cbv beta.
  erewrite bind_Ok; [|reflexivity]. cbv beta.
  rewrite Hdcj, Henv, Hne.
  erewrite bind_Ok; [|unfold lift; by rewrite Hcred]. cbv beta iota.
  set (wa := snd (logging INFO ("Model version: " +:+ v) w1)).
  assert (os_chdir "/output" wa = (Ok tt, wa)) as Hcd.
  { unfold os_chdir, isdir. change (abspath wa "/output") with "/output".
    change (fs wa) with (fs w1). rewrite Hout.
    unfold wa. cbn. by rewrite Hcwd. }
  erewrite bind_Ok; [|exact Hcd]. cbv beta.
  erewrite bind_Ok; cycle 1.
  { unfold ensure_model_directory_exists.
    erewrite bind_Ok; [|reflexivity]. cbv beta.
    change (exists_ wa ("/output/deepstream_models/" +:+ v))
      with (exists_ w1 ("/output/deepstream_models/" +:+ v)).
    rewrite Hdir. cbn [negb].
    erewrite bind_Ok; [|reflexivity]. reflexivity. }
  cbv beta.
  erewrite bind_Ok; cycle 1.
  { apply label_step_present. exact Hlabel. }
  cbv beta.
  erewrite bind_Ok; [|by apply get_gpu_model_eval]. cbv beta.
  rewrite model_step_present by exact Hmodel.
  eexists. split; [reflexivity|]. cbn. by rewrite Hcwd.
Qed.

Lemma main_rerun_skips_downloads_witness :
  ∃ w2, main (demo_host a16_listing (PStr demo_engine_md5))
          (snd (main (demo_host a16_listing (PStr demo_engine_md5)) demo_world))
        = (0, w2) ∧
        fs w2 = fs (snd (main (demo_host a16_listing (PStr demo_engine_md5)) demo_world)) ∧
        cwd w2 = cwd (snd (main (demo_host a16_listing (PStr demo_engine_md5)) demo_world)) ∧
        calls w2
        = calls (snd (main (demo_host a16_listing (PStr demo_engine_md5)) demo_world))
          ++ [["nvidia-smi"; "-L"]].
Proof.
  apply (main_rerun_skips_downloads (demo_host a16_listing (PStr demo_engine_md5))
           demo_world).
  vm_compute. reflexivity.
Defined.

(** ** What main logs *)

Lemma info_only_same {A} (m : M A) : (∀ w, log (snd (m w)) = log w) → info_only m.
Proof. intros H w. exists []. by rewrite H, app_nil_r. Qed.

Lemma info_only_ret {A} (a : A) : info_only (ret a).
Proof. by apply info_only_same. Qed.

Lemma info_only_raise {A} (e : exn) : info_only (@raise A e).
Proof. by apply info_only_same. Qed.

Lemma info_only_lift {A} (r : result A) : info_only (lift r).
Proof. by apply info_only_same. Qed.

Lemma info_only_logging (msg : string) : info_only (logging INFO msg).
Proof. intros w. exists [(INFO, msg)]. split; [done|]. by repeat constructor. Qed.

Lemma info_only_record_call (argv : list string) : info_only (record_call argv).
Proof. by apply info_only_same. Qed.

Lemma info_only_read_file (p : string) : info_only (read_file p).
Proof. apply info_only_same. intros w. unfold read_file. by repeat case_match. Qed.

Lemma info_only_curl_output (p : string) (c : list byte) : info_only (curl_output p c).
Proof. apply info_only_same. intros w. unfold curl_output. by case_match. Qed.

Lemma info_only_os_rename (src dst : string) : info_only (os_rename src dst).
Proof. apply info_only_same. intros w. unfold os_rename. by repeat case_match. Qed.

Lemma info_only_os_chdir (p : string) : info_only (os_chdir p).
Proof. apply info_only_same. intros w. unfold os_chdir. by case_match. Qed.

Lemma info_only_os_makedirs (p : string) : info_only (os_makedirs p).
Proof. apply info_only_same. intros w. unfold os_makedirs. cbv zeta. by case_match. Qed.

Lemma info_only_os_path_isfile (p : string) : info_only (os_path_isfile p).
Proof. by apply info_only_same. Qed.

Lemma info_only_os_path_exists (p : string) : info_only (os_path_exists p).
Proof. by apply info_only_same. Qed.

Lemma info_only_bind {A B} (m : M A) (k : A → M B) :
  info_only m → (∀ a, info_only (k a)) → info_only (bind m k).
Proof.
  intros Hm Hk w. unfold bind. destruct (Hm w) as (l & Hl & Hi).
  destruct (m w) as [[a|e] w'] eqn:Hmw; cbn in Hl.
  - destruct (Hk a w') as (l' & Hl' & Hi'). exists (l ++ l').
    split; [by rewrite Hl', Hl, app_assoc|]. by apply Forall_app.
  - by exists l.
Qed.

Lemma info_only_try_except {A} (m : M A) (k : exn → M A) :
  info_only m → (∀ e, info_only (k e)) → info_only (try_except m k).
Proof.
  intros Hm Hk w. unfold try_except. destruct (Hm w) as (l & Hl & Hi).
  destruct (m w) as [[a|e] w'] eqn:Hmw; cbn in Hl.
  - by exists l.
  - destruct (Hk e w') as (l' & Hl' & Hi'). exists (l ++ l').
    split; [by rewrite Hl', Hl, app_assoc|]. by apply Forall_app.
Qed.

Create HintDb info_only discriminated.
#[local] Hint Resolve info_only_ret info_only_raise info_only_lift info_only_logging
  info_only_record_call info_only_read_file info_only_curl_output info_only_os_rename
  info_only_os_chdir info_only_os_makedirs info_only_os_path_isfile
  info_only_os_path_exists : info_only.

Ltac info_only_step :=
  first [ solve [auto with info_only]
        | progress cbv zeta
        | apply info_only_bind; [|intros ?]
        | apply info_only_try_except; [|intros ?]
        | match goal with |- info_only (match ?x with _ => _ end) => destruct x end
        | match goal with |- info_only (if ?x then _ else _) => destruct x end ].

Lemma info_only_read_yaml_config (h : Host) (p : string) : info_only (read_yaml_config h p).
Proof. unfold read_yaml_config. repeat info_only_step. Qed.

Lemma info_only_get_gpu_model (h : Host) : info_only (get_gpu_model h).
Proof. unfold get_gpu_model. repeat info_only_step. Qed.

Lemma info_only_run_curl_command (h : Host) (url : string) (u p : pyval) (lp : string) :
  info_only (run_curl_command h url u p lp).
Proof. unfold run_curl_command. repeat info_only_step. Qed.

Lemma info_only_get_jfrog_checksum (h : Host) (url : string) (u p : pyval) :
  info_only (get_jfrog_checksum h url u p).
Proof. unfold get_jfrog_checksum. repeat info_only_step. Qed.

Lemma info_only_verify_md5 (p : string) (e : pyval) : info_only (verify_md5 p e).
Proof. unfold verify_md5. repeat info_only_step. Qed.

Lemma info_only_ensure_model_directory_exists (d : string) :
  info_only (ensure_model_directory_exists d).
Proof. unfold ensure_model_directory_exists. repeat info_only_step. Qed.

#[local] Hint Resolve info_only_read_yaml_config info_only_get_gpu_model
  info_only_run_curl_command info_only_get_jfrog_checksum info_only_verify_md5
  info_only_ensure_model_directory_exists : info_only.

Lemma info_only_label_step (h : Host) (label_file v : string) (u p : pyval) :
  info_only (download_and_check_label_file h label_file v u p).
Proof. unfold download_and_check_label_file. repeat info_only_step. Qed.

Lemma info_only_model_step (h : Host) (model_file v : string) (gpu : option string)
    (u p : pyval) :
  info_only (download_and_check_model_file h model_file v gpu u p).
Proof. unfold download_and_check_model_file. repeat info_only_step. Qed.

#[local] Hint Resolve info_only_label_step info_only_model_step : info_only.

Lemma info_only_main_body (h : Host) : info_only (main_body h).
Proof. unfold main_body. repeat info_only_step. Qed.

(** X14: the exit status of main is 0 or 1; a run that exits with 0 has
    logged INFO lines only; a run that exits with 1 has logged INFO lines
    followed by exactly one ERROR line, its last: the message of the
    ScriptError, or [Unexpected error: ] and the text of any other
    exception. *)
Theorem main_exit_status_and_log (h : Host) (w : World) :
  let r := main h w in
  (fst r = 0 ∨ fst r = 1) ∧
  (fst r = 0 →
   ∃ l, log (snd r) = log w ++ l ∧ Forall (λ entry, fst entry = INFO) l) ∧
  (fst r = 1 →
   ∃ l e, fst (main_body h w) = Raise e ∧
          log (snd r)
          = log w ++ l ++
            [(ERROR, match e with
                     | ScriptError msg => msg
                     | _ => "Unexpected error: " +:+ exn_str e
                     end)] ∧
          Forall (λ entry, fst entry = INFO) l).
Proof.
  cbv zeta. unfold main.
  destruct (info_only_main_body h w) as (l & Hl & Hi).
  destruct (main_body h w) as [[[]|e] w'] eqn:Hr; cbn in Hl.
  - cbn. split; [by left|]. split; [by exists l|done].
  - assert (∀ msg, log (snd (logging ERROR msg w')) = log w ++ l ++ [(ERROR, msg)])
      as Hlog by (intros msg; cbn; by rewrite Hl, app_assoc).
    destruct e; cbn [fst snd]; (split; [by right|]); (split; [done|]);
      intros _; eexists l, _; (split; [reflexivity|]); (split; [apply Hlog|done]).
Qed.

(** ** The version as a directory *)





(** ** Credentials, the other way round *)

(** X16: get_auth_credentials returns the pair (username, password)
    exactly when the blob parses and [auths[<env>]] holds a non-empty
    username and a non-empty password; the values are returned as they
    are in the blob. *)
Theorem get_auth_credentials_returns_the_fields (h : Host) (blob env : string)
    (u p : pyval) :
  get_auth_credentials h blob env = Ok (u, p) ↔
  ∃ parsed, json_loads h blob = Some parsed ∧
            credential_field parsed env "username" = Some u ∧
            credential_field parsed env "password" = Some p ∧
            truthy u = true ∧ truthy p = true.
Proof. apply get_auth_credentials_Ok. Qed.

(** ** Failures of the model step *)

Lemma bind_inv_Raise {A B} (m : M A) (k : A → M B) (w w' : World) (e : exn) :
  bind m k w = (Raise e, w') →
  m w = (Raise e, w') ∨ ∃ a w1, m w = (Ok a, w1) ∧ k a w1 = (Raise e, w').
Proof.
  unfold bind. destruct (m w) as [[a|e'] w1]; [|intros [= -> ->]; by left].
  intros H. right. by exists a, w1.
Qed.

Lemma os_rename_inv_Raise (src dst : string) (e : exn) (w w' : World) :
  os_rename src dst w = (Raise e, w') → w' = w.
Proof.
  unfold os_rename. destruct (fs w !! abspath w src) as [[c|]|];
    [|by intros [= _ <-]..].
  destruct (_ || _); [by intros [= _ <-]|done].
Qed.

(** A model step that raises has not written the model path, provided the
    model path is not one of the two download names. *)
Lemma model_step_raise_keeps_model_path (h : Host) (model_file v : string)
    (gpu : option string) (u p : pyval) (e : exn) (w w' : World) :
  isfile w model_file = false →
  abspath w model_file ≠ abspath w A2_ENGINE →
  abspath w model_file ≠ abspath w A16_ENGINE →
  download_and_check_model_file h model_file v gpu u p w = (Raise e, w') →
  fs w' !! abspath w model_file = fs w !! abspath w model_file.
Proof.
  intros Hf HA2 HA16. rewrite model_step_absent by done.
  set (w1 := snd (logging INFO _ w)).
  change (fs w) with (fs w1). change (abspath w) with (abspath w1) in *.
  intros [Hsel|(variant & wa & Hsel & H)]%bind_inv_Raise.
  { unfold lift in Hsel. by injection Hsel as _ <-. }
  destruct variant as [url lp]. unfold lift in Hsel. injection Hsel as Hsel <-.
  destruct (select_variant_Ok _ _ _ _ Hsel) as [Hlp _].
  destruct (select_variant_names _ _ _ _ Hsel) as (_ & _ & Hbu).
  assert (abspath w1 model_file ≠ abspath w1 lp) as Hne
    by (by destruct Hlp as [-> | ->]).
  pose proof (run_curl_command_frame h url u p lp w1 (abspath w1 model_file)) as Hframe.
  rewrite Hbu in Hframe. specialize (Hframe Hne Hne).
  pose proof (run_curl_command_cwd h url u p lp w1) as Hcwd2.
  apply bind_inv_Raise in H as [Hdl|([] & w2 & Hdl & H)];
    rewrite Hdl in Hframe, Hcwd2; cbn [snd] in Hframe, Hcwd2; [done|].
  cbv zeta in H.
  apply bind_inv_Raise in H as [Hck|(reported & w3 & Hck & H)].
  { destruct (get_jfrog_checksum_cases h
                (STORAGE_API +:+ v +:+ "/" +:+ basename lp) u p w2) as [Hw _].
    rewrite Hck in Hw. cbn in Hw. subst w'. by cbn. }
  apply get_jfrog_checksum_inv_Ok in Hck as (Hfs3 & Hcwd3 & _).
  pose proof (confined_verify_md5 w3 [] lp reported w3 eq_refl) as [Hcwd4 Hfs4].
  apply bind_inv_Raise in H as [Hver|([] & w4 & Hver & H)];
    rewrite Hver in Hcwd4, Hfs4; cbn [snd] in Hcwd4, Hfs4.
  { rewrite (Hfs4 _ (not_elem_of_nil _)). congruence. }
  assert (fs w4 !! abspath w1 model_file = fs w1 !! abspath w1 model_file) as Hkeep.
  { rewrite (Hfs4 _ (not_elem_of_nil _)). congruence. }
  apply bind_inv_Raise in H as [Hren|([] & w5 & Hren & H)].
  { apply os_rename_inv_Raise in Hren as ->. exact Hkeep. }
  apply os_rename_inv_Ok in Hren as (c & _ & ->).
  apply bind_inv_Raise in H as [Hex|(present & w6 & Hex & H)]; [done|].
  unfold os_path_exists in Hex. injection Hex as <- <-.
  unfold exists_ in H. cbn in H. rewrite lookup_insert_eq in H. done.
Qed.

(** X17: staging is all or nothing.  When the model file is not there and
    the model path is not one of the two download names, a model step
    that raises (a failed download, a failed checksum query, a checksum
    mismatch, a failed rename) leaves no file at the model path. *)
Theorem model_step_failure_leaves_no_model_file (h : Host) (model_file v : string)
    (gpu : option string) (u p : pyval) (e : exn) (w w' : World) :
  isfile w model_file = false →
  abspath w model_file ≠ abspath w A2_ENGINE →
  abspath w model_file ≠ abspath w A16_ENGINE →
  download_and_check_model_file h model_file v gpu u p w = (Raise e, w') →
  isfile w' model_file = false.
Proof.
  intros Hf HA2 HA16 Hr.
  pose proof (model_step_raise_keeps_model_path _ _ _ _ _ _ _ _ _ Hf HA2 HA16 Hr) as Hkeep.
  pose proof (confined_model_step w h model_file v gpu u p w eq_refl) as [Hcwd _].
  rewrite Hr in Hcwd. cbn in Hcwd.
  unfold isfile in *. rewrite (abspath_cwd w w') by done. by rewrite Hkeep.
Qed.

Lemma model_step_failure_leaves_no_model_file_witness :
  isfile (snd (download_and_check_model_file mismatch_host (model_file_of "v3.2") "v3.2"
                 (Some "NVIDIA A16-16Q") (PStr "u") (PStr "p") ready_world))
    (model_file_of "v3.2") = false.
Proof.
  apply (model_step_failure_leaves_no_model_file mismatch_host (model_file_of "v3.2")
           "v3.2" (Some "NVIDIA A16-16Q") (PStr "u") (PStr "p")
           (ScriptError ("MD5 check failed for " +:+ A16_ENGINE +:+ ".")) ready_world).
  - vm_compute. reflexivity.
  - vm_compute. discriminate.
  - vm_compute. discriminate.
  - vm_compute. reflexivity.
Defined.

(** X18: there is no rollback.  When main has reached the model step and
    the model step raises, main exits with status 1 and what the earlier
    steps staged stays: the model directory exists and the label file is
    a regular file. *)
Theorem main_keeps_label_file_on_model_failure (h : Host) (w wh : World) (v : string)
    (u p : pyval) (gpu : option string) (e : exn) :
  main_setup h w = (Ok (v, u, p, gpu), wh) →
  fst (download_and_check_model_file h (model_file_of v) v gpu u p wh) = Raise e →
  fst (main h w) = 1 ∧
  exists_ (snd (main h w)) ("/output/deepstream_models/" +:+ v) = true ∧
  isfile (snd (main h w)) ("/output/deepstream_models/" +:+ v +:+ "/labels.txt") = true.
Proof.
  intros Hsetup Hraise.
  destruct (main_setup_inv_Ok _ _ _ _ _ _ _ Hsetup)
    as (text & cfg & prop & s & dcj & env & out & _ & _ & _ & _ & _ & _ & _ & _ & _ & _
        & _ & Hcwd & _ & _ & Hdir & Hlabel).
  pose proof (confined_model_step wh h (model_file_of v) v gpu u p wh eq_refl)
    as [Hcwd1 Hfs1].
  assert (abspath wh A2_ENGINE = "/output/" +:+ A2_ENGINE) as Hk1.
  { unfold abspath. cbn [String.prefix A2_ENGINE]. by rewrite Hcwd. }
  assert (abspath wh A16_ENGINE = "/output/" +:+ A16_ENGINE) as Hk2.
  { unfold abspath. cbn [String.prefix A16_ENGINE]. by rewrite Hcwd. }
  rewrite Hk1, Hk2, model_file_absolute in Hfs1.
  unfold main. rewrite main_body_split. erewrite bind_Ok; [|exact Hsetup]. cbv beta iota.
  destruct (download_and_check_model_file h (model_file_of v) v gpu u p wh)
    as [r w1] eqn:Hstep.
  cbn in Hraise, Hcwd1, Hfs1. subst r.
  assert (exists_ w1 ("/output/deepstream_models/" +:+ v) = true) as Hdir1.
  { unfold exists_ in *. rewrite (abspath_cwd wh w1) by congruence.
    rewrite Hfs1; [done|].
    change (abspath wh ("/output/deepstream_models/" +:+ v))
      with ("/output/deepstream_models/" +:+ v).
    rewrite !elem_of_cons, elem_of_nil.
    intros [Hk|[Hk|[Hk|[]]]]; revert Hk; [str_neq_at 8%nat..|].
    intros Hk. symmetry in Hk. unfold model_file_of in Hk. by apply str_app_neq in Hk. }
  assert (isfile w1 ("/output/deepstream_models/" +:+ v +:+ "/labels.txt") = true)
    as Hlabel1.
  { unfold isfile in *. rewrite (abspath_cwd wh w1) by congruence.
    rewrite Hfs1; [done|].
    change (abspath wh ("/output/deepstream_models/" +:+ v +:+ "/labels.txt"))
      with ("/output/deepstream_models/" +:+ v +:+ "/labels.txt").
    rewrite !elem_of_cons, elem_of_nil.
    intros [Hk|[Hk|[Hk|[]]]]; revert Hk; [str_neq_at 8%nat..|].
    unfold model_file_of. rewrite str_app_assoc.
    intros Hk. do 2 apply String.app_inj in Hk. discriminate Hk. }
  by destruct e.
Qed.

Lemma main_keeps_label_file_on_model_failure_witness :
  fst (main mismatch_host demo_world) = 1 ∧
  exists_ (snd (main mismatch_host demo_world)) ("/output/deepstream_models/" +:+ "v3.2")
  = true ∧
  isfile (snd (main mismatch_host demo_world))
    ("/output/deepstream_models/" +:+ "v3.2" +:+ "/labels.txt") = true.
Proof.
  apply (main_keeps_label_file_on_model_failure mismatch_host demo_world
           (snd (main_setup mismatch_host demo_world)) "v3.2" (PStr "u") (PStr "p")
           (Some "NVIDIA A16-16Q (UUID: GPU-7c1f)")
           (ScriptError ("MD5 check failed for " +:+ A16_ENGINE +:+ "."))).
  - vm_compute. reflexivity.
  - vm_compute. reflexivity.
Defined.
